(** * The AiZynthFinder controller (aizynthfinder/aizynthfinder.py)

    A shallow embedding of the class [AiZynthFinder]: the target setters,
    [prepare_tree], [tree_search], [build_routes], [extract_statistics],
    [_get_settings] and [run_from_json], followed by the properties of the
    search loop and of the request round trip.

    Modelling choices.
    - Python values that travel through request mappings and configuration
      fields are [pyval]s; a request mapping is a [gmap string pyval].
    - Numbers are integers: a reading of [time.time()] is a number of clock
      ticks, and the [n]-th call of [time.time()] made by one [tree_search]
      returns [clock n].
    - A method is a function from the controller to a [result]: normal
      completion, an exception (with the controller as the exception left
      it), or exhausted fuel.  Fuel bounds the turns of the two [while]
      loops.
    - Stock, policies, molecules, the search tree and the route analysis are
      collaborators that live in other modules: they are interfaces (type
      classes) here.  Selection, construction and scoring may raise; the
      node operations used inside the loop complete normally.
    - Logging and the progress bar do not touch the controller and are left
      out. *)

From stdpp Require Import base option list strings gmap.
From Stdlib Require Import ZArith Lia.

Local Open Scope Z_scope.

(** ** Python values *)

#[warnings="-register-all"]
Inductive pyval : Type :=
| PNone
| PBool (b : bool)
| PNum (n : Z)
| PStr (s : string)
| PList (l : list pyval).

(** Truth value of an object in a condition. *)
Definition py_truthy (v : pyval) : bool :=
  match v with
  | PNone => false
  | PBool b => b
  | PNum n => negb (n =? 0)
  | PStr s => negb (String.eqb s "")
  | PList l => match l with [] => false | _ => true end
  end.

(** Numeric reading of a value; [bool] is a subclass of [int]. *)
Definition py_num (v : pyval) : option Z :=
  match v with
  | PNum n => Some n
  | PBool b => Some (Z.b2z b)
  | _ => None
  end.

Definition ExtErr : Type := string.

Inductive exn : Type :=
| KeyError (key : string)
| AttributeError (attr : string)
| TypeError (op : string)
| External (e : ExtErr).

(** [a < v] and [a <= v] for a number [a] and an arbitrary value [v]. *)
Definition py_lt (a : Z) (v : pyval) : exn + bool :=
  match py_num v with
  | Some n => inr (a <? n)
  | None => inl (TypeError "<")
  end.

Definition py_le (a : Z) (v : pyval) : exn + bool :=
  match py_num v with
  | Some n => inr (a <=? n)
  | None => inl (TypeError "<=")
  end.

Definition names (l : list string) : pyval := PList (PStr <$> l).

(** ** Configuration *)

Record Configuration : Type := mkConfiguration {
  C : pyval;
  max_transforms : pyval;
  cutoff_cumulative : pyval;
  cutoff_number : pyval;
  return_first : pyval;
  time_limit : pyval;
  iteration_limit : pyval;
  exclude_target_from_stock : pyval;
  filter_cutoff : pyval
}.

Definition set_C v c :=
  mkConfiguration v (max_transforms c) (cutoff_cumulative c) (cutoff_number c)
    (return_first c) (time_limit c) (iteration_limit c)
    (exclude_target_from_stock c) (filter_cutoff c).
Definition set_max_transforms v c :=
  mkConfiguration (C c) v (cutoff_cumulative c) (cutoff_number c)
    (return_first c) (time_limit c) (iteration_limit c)
    (exclude_target_from_stock c) (filter_cutoff c).
Definition set_cutoff_cumulative v c :=
  mkConfiguration (C c) (max_transforms c) v (cutoff_number c)
    (return_first c) (time_limit c) (iteration_limit c)
    (exclude_target_from_stock c) (filter_cutoff c).
Definition set_cutoff_number v c :=
  mkConfiguration (C c) (max_transforms c) (cutoff_cumulative c) v
    (return_first c) (time_limit c) (iteration_limit c)
    (exclude_target_from_stock c) (filter_cutoff c).
Definition set_return_first v c :=
  mkConfiguration (C c) (max_transforms c) (cutoff_cumulative c) (cutoff_number c)
    v (time_limit c) (iteration_limit c)
    (exclude_target_from_stock c) (filter_cutoff c).
Definition set_time_limit v c :=
  mkConfiguration (C c) (max_transforms c) (cutoff_cumulative c) (cutoff_number c)
    (return_first c) v (iteration_limit c)
    (exclude_target_from_stock c) (filter_cutoff c).
Definition set_iteration_limit v c :=
  mkConfiguration (C c) (max_transforms c) (cutoff_cumulative c) (cutoff_number c)
    (return_first c) (time_limit c) v
    (exclude_target_from_stock c) (filter_cutoff c).
Definition set_exclude_target_from_stock v c :=
  mkConfiguration (C c) (max_transforms c) (cutoff_cumulative c) (cutoff_number c)
    (return_first c) (time_limit c) (iteration_limit c)
    v (filter_cutoff c).
Definition set_filter_cutoff v c :=
  mkConfiguration (C c) (max_transforms c) (cutoff_cumulative c) (cutoff_number c)
    (return_first c) (time_limit c) (iteration_limit c)
    (exclude_target_from_stock c) v.

(** ** Search statistics: the dictionary [search_stats], one field per key *)

Record SearchStats : Type := mkStats {
  returned_first : option bool;
  iterations : option Z;
  time : option Z
}.

Definition no_stats : SearchStats := mkStats None None None.

Definition set_returned_first v s := mkStats v (iterations s) (time s).
Definition set_iterations v s := mkStats (returned_first s) v (time s).
Definition set_time v s := mkStats (returned_first s) (iterations s) v.

(** ** Collaborator interfaces *)

(** aizynthfinder.chem.Molecule *)
Class ChemOps : Type := {
  Mol : Type;
  Molecule : pyval -> ExtErr + Mol;
  mol_smiles : Mol -> string
}.

(** The stock: [select], [selection], [reset_exclusion_list], [exclude] and
    the membership test.  The last two receive [self.target_mol] as it is,
    also when it is [None]. *)
Class StockOps `{ChemOps} : Type := {
  Stock : Type;
  stock_select : pyval -> Stock -> ExtErr + Stock;
  stock_selection : Stock -> list string;
  reset_exclusion_list : Stock -> Stock;
  stock_contains : option Mol -> Stock -> ExtErr + bool;
  stock_exclude : option Mol -> Stock -> ExtErr + Stock
}.

(** Expansion and filter policy: [select], [deselect], [selection]. *)
Class PolicyOps : Type := {
  Policy : Type;
  policy_select : pyval -> Policy -> ExtErr + Policy;
  policy_deselect : Policy -> Policy;
  policy_selection : Policy -> list string
}.

(** aizynthfinder.mcts.mcts.SearchTree and its nodes.  Node methods read and
    update the tree the node belongs to. *)
Class TreeOps `{StockOps} `{PolicyOps} : Type := {
  Tree : Type;
  Node : Type;
  Score : Type;
  SearchTree : string -> Configuration -> Stock -> Policy -> Policy -> ExtErr + Tree;
  select_leaf : Tree -> Node * Tree;
  expand : Node -> Tree -> Tree;
  is_terminal : Node -> Tree -> bool;
  promising_child : Node -> Tree -> option Node * Tree;
  state_score : Node -> Tree -> Score;
  state_is_solved : Node -> Tree -> bool;
  backpropagate : Node -> Score -> Tree -> Tree
}.

(** Scorer registry, TreeAnalysis and RouteCollection. *)
Class AnalysisOps `{TreeOps} : Type := {
  Scorer : Type;
  Analysis : Type;
  Routes : Type;
  RouteDicts : Type;
  scorers_lookup : string -> ExtErr + Scorer;
  scorers_objects : list Scorer;
  TreeAnalysis : option Tree -> Scorer -> ExtErr + Analysis;
  tree_statistics : Analysis -> gmap string pyval;
  from_analysis : Analysis -> Z -> ExtErr + Routes;
  routes_dicts : Routes -> RouteDicts;
  compute_scores : list Scorer -> Routes -> ExtErr + Routes;
  dict_with_scores : Routes -> RouteDicts
}.

(** ** The controller *)

Section Controller.
Context {chem : ChemOps} {stk : StockOps} {pol : PolicyOps}
        {trs : TreeOps} {ana : AnalysisOps}.

Record AiZynthFinder : Type := mkFinder {
  config : Configuration;
  expansion_policy : Policy;
  filter_policy : Policy;
  stock : Stock;
  tree : option Tree;
  _target_mol : option Mol;
  search_stats : SearchStats;
  routes : option Routes;
  analysis : option Analysis
}.

Definition set_config v self :=
  mkFinder v (expansion_policy self) (filter_policy self) (stock self) (tree self)
    (_target_mol self) (search_stats self) (routes self) (analysis self).
Definition set_expansion_policy v self :=
  mkFinder (config self) v (filter_policy self) (stock self) (tree self)
    (_target_mol self) (search_stats self) (routes self) (analysis self).
Definition set_filter_policy v self :=
  mkFinder (config self) (expansion_policy self) v (stock self) (tree self)
    (_target_mol self) (search_stats self) (routes self) (analysis self).
Definition set_stock v self :=
  mkFinder (config self) (expansion_policy self) (filter_policy self) v (tree self)
    (_target_mol self) (search_stats self) (routes self) (analysis self).
Definition set_tree v self :=
  mkFinder (config self) (expansion_policy self) (filter_policy self) (stock self) v
    (_target_mol self) (search_stats self) (routes self) (analysis self).
Definition set__target_mol v self :=
  mkFinder (config self) (expansion_policy self) (filter_policy self) (stock self)
    (tree self) v (search_stats self) (routes self) (analysis self).
Definition set_search_stats v self :=
  mkFinder (config self) (expansion_policy self) (filter_policy self) (stock self)
    (tree self) (_target_mol self) v (routes self) (analysis self).
Definition set_routes v self :=
  mkFinder (config self) (expansion_policy self) (filter_policy self) (stock self)
    (tree self) (_target_mol self) (search_stats self) v (analysis self).
Definition set_analysis v self :=
  mkFinder (config self) (expansion_policy self) (filter_policy self) (stock self)
    (tree self) (_target_mol self) (search_stats self) (routes self) v.

(** [__init__]: the configuration and the collaborators it carries come from
    the file, the dictionary or the defaults; everything else is empty. *)
Definition new_finder (cfg : Configuration) (ep fp : Policy) (st : Stock)
  : AiZynthFinder :=
  mkFinder cfg ep fp st None None no_stats None None.

(** *** Outcome of a method call *)

Inductive result (A : Type) : Type :=
| Return (a : A) (self : AiZynthFinder)
| Raise (e : exn) (self : AiZynthFinder)
| Diverge.
Arguments Return {A} a self.
Arguments Raise {A} e self.
Arguments Diverge {A}.

Definition M (A : Type) : Type := AiZynthFinder -> result A.

Definition ret {A} (a : A) : M A := fun self => Return a self.

Definition bind {A B} (m : M A) (k : A -> M B) : M B :=
  fun self =>
    match m self with
    | Return a self' => k a self'
    | Raise e self' => Raise e self'
    | Diverge => Diverge
    end.

Notation "x <- m ;; k" := (bind m (fun x => k))
  (at level 100, m at next level, right associativity).
Notation "m ;;; k" := (bind m (fun _ => k))
  (at level 100, right associativity).

Definition raise {A} (e : exn) : M A := fun self => Raise e self.

(** Plain attribute assignment. *)
Definition assign (f : AiZynthFinder -> AiZynthFinder) : M unit :=
  fun self => Return tt (f self).

(** A collaborator call that may raise: its error reaches the caller
    unchanged. *)
Definition external {A} (r : ExtErr + A) : M A :=
  fun self =>
    match r with
    | inr a => Return a self
    | inl e => Raise (External e) self
    end.

(** [params[key]] *)
Definition subscript (params : gmap string pyval) (key : string) : M pyval :=
  fun self =>
    match params !! key with
    | Some v => Return v self
    | None => Raise (KeyError key) self
    end.

(** *** Target properties *)

(** [target_smiles] (getter): [self._target_mol.smiles] *)
Definition target_smiles : M string :=
  fun self =>
    match _target_mol self with
    | Some mol => Return (mol_smiles mol) self
    | None => Raise (AttributeError "smiles") self
    end.

(** [target_mol] (getter) *)
Definition target_mol (self : AiZynthFinder) : option Mol := _target_mol self.

(** [target_mol] (setter) *)
Definition set_target_mol (mol : option Mol) : M unit :=
  assign (set_tree None) ;;;
  assign (set__target_mol mol).

(** [target_smiles] (setter) *)
Definition set_target_smiles (smiles : pyval) : M unit :=
  mol <- external (Molecule smiles) ;;
  set_target_mol (Some mol).

(** *** build_routes and extract_statistics *)

Definition build_routes (min_nodes : Z) (scorer : string) : M unit :=
  sc <- external (scorers_lookup scorer) ;;
  fun self =>
    (a <- external (TreeAnalysis (tree self) sc) ;;
     assign (set_analysis (Some a)) ;;;
     r <- external (from_analysis a min_nodes) ;;
     assign (set_routes (Some r))) self.

Definition extract_statistics : M (gmap string pyval) :=
  fun self =>
    match analysis self with
    | None => Return ∅ self
    | Some a =>
        (smi <- target_smiles ;;
         fun self' =>
           match time (search_stats self') with
           | None => Raise (KeyError "time") self'
           | Some t =>
               Return (tree_statistics a ∪
                       <["target" := PStr smi]> {["search_time" := PNum t]}) self'
           end) self
    end.

(** *** prepare_tree *)

Definition prepare_tree : M unit :=
  assign (fun self => set_stock (reset_exclusion_list (stock self)) self) ;;;
  (fun self =>
     if py_truthy (exclude_target_from_stock (config self)) then
       (present <- external (stock_contains (target_mol self) (stock self)) ;;
        if present : bool then
          st <- external (stock_exclude (target_mol self) (stock self)) ;;
          assign (set_stock st)
        else ret tt) self
     else Return tt self) ;;;
  smi <- target_smiles ;;
  (fun self =>
     (t <- external (SearchTree smi (config self) (stock self)
                       (expansion_policy self) (filter_policy self)) ;;
      assign (set_tree (Some t))) self) ;;;
  assign (set_analysis None) ;;;
  assign (set_routes None).

(** *** tree_search *)

(** The inner loop [while not leaf.is_terminal()]: ask for the promising
    child; a child is expanded and becomes the leaf; without a child the
    leaf stays and the test is made again. *)
Fixpoint descend (fuel : nat) (leaf : Node) (t : Tree) : option (Node * Tree) :=
  if is_terminal leaf t then Some (leaf, t)
  else
    match fuel with
    | O => None
    | S fuel' =>
        match promising_child leaf t with
        | (Some child, t') => descend fuel' child (expand child t')
        | (None, t') => descend fuel' leaf t'
        end
    end.

(** Selection, expansion, descent and backpropagation of one iteration:
    the final leaf and the tree after backpropagation. *)
Definition one_iteration (gas : nat) (t : Tree) : option (Node * Tree) :=
  let '(leaf, t1) := select_leaf t in
  match descend gas leaf (expand leaf t1) with
  | Some (leaf', t2) =>
      Some (leaf', backpropagate leaf' (state_score leaf' t2) t2)
  | None => None
  end.

(** The outer loop, entered with the local variables [i] and [time_past];
    [reads] counts the calls of [time.time()] made so far and [gas] is the
    fuel of each descent.  The value returned is [time_past] at loop exit. *)
Fixpoint search_loop (gas fuel : nat) (clock : nat -> Z) (time0 : Z)
    (reads : nat) (i time_past : Z) (self : AiZynthFinder) : result Z :=
  match py_lt time_past (time_limit (config self)) with
  | inl e => Raise e self
  | inr false => Return time_past self
  | inr true =>
  match py_le i (iteration_limit (config self)) with
  | inl e => Raise e self
  | inr false => Return time_past self
  | inr true =>
  match fuel with
  | O => Diverge
  | S fuel' =>
  match iterations (search_stats self) with
  | None => Raise (KeyError "iterations") self
  | Some n =>
  let self1 :=
    set_search_stats (set_iterations (Some (n + 1)) (search_stats self)) self in
  match tree self1 with
  | None => Raise (AttributeError "select_leaf") self1
  | Some t =>
  match one_iteration gas t with
  | None => Diverge
  | Some (leaf, t') =>
  let self2 := set_tree (Some t') self1 in
  if py_truthy (return_first (config self2)) && state_is_solved leaf t' then
    (* break *)
    Return time_past
      (set_search_stats (set_returned_first (Some true) (search_stats self2)) self2)
  else
    search_loop gas fuel' clock time0 (S reads) (i + 1) (clock reads - time0) self2
  end end end end end end.

Definition tree_search (fuel : nat) (clock : nat -> Z) : M Z :=
  (fun self =>
     match tree self with
     | None => prepare_tree self
     | Some _ => Return tt self
     end) ;;;
  assign (set_search_stats (mkStats (Some false) (Some 0) None)) ;;;
  time_past <- search_loop fuel fuel clock (clock 0%nat) 2 1
                 (clock 1%nat - clock 0%nat) ;;
  assign (fun self => set_search_stats (set_time (Some time_past) (search_stats self)) self) ;;;
  ret time_past.

(** *** _get_settings *)

Definition _get_settings : M (gmap string pyval) :=
  fun self =>
    let selection := policy_selection (expansion_policy self) in
    let '(policy_key, policy_value) :=
      match selection with
      | [p] => ("policy", PStr p)            (* len(selection) == 1 *)
      | _ => ("policies", names selection)
      end in
    (smiles <- target_smiles ;;
     fun self =>
       let dict_ : gmap string pyval :=
         <["filter_cutoff" := filter_cutoff (config self)]>
         (<["exclude_target_from_stock" := exclude_target_from_stock (config self)]>
         (<["iteration_limit" := iteration_limit (config self)]>
         (<["time_limit" := time_limit (config self)]>
         (<["return_first" := return_first (config self)]>
         (<["smiles" := PStr smiles]>
         (<["cutoff_number" := cutoff_number (config self)]>
         (<["cutoff_cumulative" := cutoff_cumulative (config self)]>
         (<["max_transforms" := max_transforms (config self)]>
         (<["C" := C (config self)]>
         (<[policy_key := policy_value]>
         (<["stocks" := names (stock_selection (stock self))]> ∅))))))))))) in
       match policy_selection (filter_policy self) with
       | [] => Return dict_ self
       | fsel => Return (<["filter" := names fsel]> dict_) self
       end) self.

(** *** run_from_json *)

Record Response : Type := mkResponse {
  request : gmap string pyval;
  trees : RouteDicts
}.

(** [params.get("policy", params.get("policies", ""))] *)
Definition policy_argument (params : gmap string pyval) : pyval :=
  default (default (PStr "") (params !! "policies")) (params !! "policy").

(** [self.routes.<method>] *)
Definition the_routes : M Routes :=
  fun self =>
    match routes self with
    | Some r => Return r self
    | None => Raise (AttributeError "routes") self
    end.

Definition run_from_json (fuel : nat) (clock : nat -> Z)
    (params : gmap string pyval) : M Response :=
  v <- subscript params "stocks" ;;
  (fun self => (st <- external (stock_select v (stock self)) ;;
                assign (set_stock st)) self) ;;;
  (fun self => (p <- external (policy_select (policy_argument params)
                                 (expansion_policy self)) ;;
                assign (set_expansion_policy p)) self) ;;;
  match params !! "filter" with
  | Some f =>
      fun self => (p <- external (policy_select f (filter_policy self)) ;;
                   assign (set_filter_policy p)) self
  | None =>
      assign (fun self => set_filter_policy (policy_deselect (filter_policy self)) self)
  end ;;;
  v <- subscript params "C" ;;
  assign (fun self => set_config (set_C v (config self)) self) ;;;
  v <- subscript params "max_transforms" ;;
  assign (fun self => set_config (set_max_transforms v (config self)) self) ;;;
  v <- subscript params "cutoff_cumulative" ;;
  assign (fun self => set_config (set_cutoff_cumulative v (config self)) self) ;;;
  v <- subscript params "cutoff_number" ;;
  assign (fun self => set_config (set_cutoff_number v (config self)) self) ;;;
  v <- subscript params "smiles" ;;
  set_target_smiles v ;;;
  v <- subscript params "return_first" ;;
  assign (fun self => set_config (set_return_first v (config self)) self) ;;;
  v <- subscript params "time_limit" ;;
  assign (fun self => set_config (set_time_limit v (config self)) self) ;;;
  v <- subscript params "iteration_limit" ;;
  assign (fun self => set_config (set_iteration_limit v (config self)) self) ;;;
  v <- subscript params "exclude_target_from_stock" ;;
  assign (fun self => set_config (set_exclude_target_from_stock v (config self)) self) ;;;
  v <- subscript params "filter_cutoff" ;;
  assign (fun self => set_config (set_filter_cutoff v (config self)) self) ;;;
  prepare_tree ;;;
  _ <- tree_search fuel clock ;;
  build_routes 5 "state score" ;;;
  if negb (py_truthy (default (PBool false) (params !! "score_trees"))) then
    req <- _get_settings ;;
    r <- the_routes ;;
    ret (mkResponse req (routes_dicts r))
  else
    r <- the_routes ;;
    r' <- external (compute_scores scorers_objects r) ;;
    assign (set_routes (Some r')) ;;;
    req <- _get_settings ;;
    r <- the_routes ;;
    ret (mkResponse req (dict_with_scores r)).

(** *** Vocabulary of the properties *)

(** The part of [run_from_json] that reads the request into the selections,
    the configuration and the target, and the part that follows it. *)
Definition apply_settings (params : gmap string pyval) : M unit :=
  v <- subscript params "stocks" ;;
  (fun self => (st <- external (stock_select v (stock self)) ;;
                assign (set_stock st)) self) ;;;
  (fun self => (p <- external (policy_select (policy_argument params)
                                 (expansion_policy self)) ;;
                assign (set_expansion_policy p)) self) ;;;
  match params !! "filter" with
  | Some f =>
      fun self => (p <- external (policy_select f (filter_policy self)) ;;
                   assign (set_filter_policy p)) self
  | None =>
      assign (fun self => set_filter_policy (policy_deselect (filter_policy self)) self)
  end ;;;
  v <- subscript params "C" ;;
  assign (fun self => set_config (set_C v (config self)) self) ;;;
  v <- subscript params "max_transforms" ;;
  assign (fun self => set_config (set_max_transforms v (config self)) self) ;;;
  v <- subscript params "cutoff_cumulative" ;;
  assign (fun self => set_config (set_cutoff_cumulative v (config self)) self) ;;;
  v <- subscript params "cutoff_number" ;;
  assign (fun self => set_config (set_cutoff_number v (config self)) self) ;;;
  v <- subscript params "smiles" ;;
  set_target_smiles v ;;;
  v <- subscript params "return_first" ;;
  assign (fun self => set_config (set_return_first v (config self)) self) ;;;
  v <- subscript params "time_limit" ;;
  assign (fun self => set_config (set_time_limit v (config self)) self) ;;;
  v <- subscript params "iteration_limit" ;;
  assign (fun self => set_config (set_iteration_limit v (config self)) self) ;;;
  v <- subscript params "exclude_target_from_stock" ;;
  assign (fun self => set_config (set_exclude_target_from_stock v (config self)) self) ;;;
  v <- subscript params "filter_cutoff" ;;
  assign (fun self => set_config (set_filter_cutoff v (config self)) self).

Definition search_and_report (fuel : nat) (clock : nat -> Z)
    (params : gmap string pyval) : M Response :=
  prepare_tree ;;;
  _ <- tree_search fuel clock ;;
  build_routes 5 "state score" ;;;
  if negb (py_truthy (default (PBool false) (params !! "score_trees"))) then
    req <- _get_settings ;;
    r <- the_routes ;;
    ret (mkResponse req (routes_dicts r))
  else
    r <- the_routes ;;
    r' <- external (compute_scores scorers_objects r) ;;
    assign (set_routes (Some r')) ;;;
    req <- _get_settings ;;
    r <- the_routes ;;
    ret (mkResponse req (dict_with_scores r)).

(** The keys that [run_from_json] reads with [params[...]], in reading
    order. *)
Definition required_keys : list string :=
  ["stocks"; "C"; "max_transforms"; "cutoff_cumulative"; "cutoff_number";
   "smiles"; "return_first"; "time_limit"; "iteration_limit";
   "exclude_target_from_stock"; "filter_cutoff"]%string.

(** The error is the lookup failure of a required key that the request
    lacks. *)
Definition missing_field (params : gmap string pyval) (e : exn) : Prop :=
  exists key, e = KeyError key /\ key ∈ required_keys /\ params !! key = None.

Definition is_external (e : exn) : Prop := exists x, e = External x.

(** The singular/plural rule of the serialised settings. *)
Definition policy_key_rule (selection : list string) (d : gmap string pyval)
  : Prop :=
  (forall p, selection = [p] ->
     d !! "policy" = Some (PStr p) /\ d !! "policies" = None) /\
  ((1 < length selection)%nat ->
     d !! "policies" = Some (names selection) /\ d !! "policy" = None).






(** What a search leaves alone: configuration, collaborators, target,
    analysis and routes; and it neither creates nor drops the tree. *)
Definition same_setup (self self' : AiZynthFinder) : Prop :=
  config self' = config self /\ stock self' = stock self /\
  expansion_policy self' = expansion_policy self /\
  filter_policy self' = filter_policy self /\
  _target_mol self' = _target_mol self /\
  analysis self' = analysis self /\ routes self' = routes self /\
  (tree self = None -> tree self' = None) /\
  (is_Some (tree self) -> is_Some (tree self')).

(** Controllers that the public interface can produce: a new controller,
    then any sequence of method calls and of changes that callers make to
    the configuration and to the collaborators; a call that raises leaves
    the controller as it was at the raise. *)
Inductive api_call : forall A : Type, M A -> Prop :=
| call_set_target_mol mol : api_call unit (set_target_mol mol)
| call_set_target_smiles v : api_call unit (set_target_smiles v)
| call_build_routes n sc : api_call unit (build_routes n sc)
| call_extract_statistics : api_call _ extract_statistics
| call_prepare_tree : api_call unit prepare_tree
| call_tree_search fuel clock : api_call Z (tree_search fuel clock)
| call_run_from_json fuel clock params :
    api_call Response (run_from_json fuel clock params)
| call_config c : api_call unit (assign (set_config c))
| call_stock st : api_call unit (assign (set_stock st))
| call_expansion_policy p : api_call unit (assign (set_expansion_policy p))
| call_filter_policy p : api_call unit (assign (set_filter_policy p)).

Definition leaves {A} (m : M A) (self self' : AiZynthFinder) : Prop :=
  (exists a, m self = Return a self') \/ (exists e, m self = Raise e self').

Inductive reachable : AiZynthFinder -> Prop :=
| reach_new cfg ep fp st : reachable (new_finder cfg ep fp st)
| reach_call A (m : M A) self self' :
    reachable self -> api_call A m -> leaves m self self' -> reachable self'.

(** Resetting the exclusion list of a stock undoes every exclusion. *)
Definition exclusion_list_resets : Prop :=
  (forall st, reset_exclusion_list (reset_exclusion_list st)
              = reset_exclusion_list st) /\
  (forall m st st',
     stock_exclude m st = inr st' ->
     reset_exclusion_list st' = reset_exclusion_list st).

(** Routes exist only together with an analysis. *)
Definition routes_backed (self : AiZynthFinder) : Prop :=
  is_Some (routes self) -> is_Some (analysis self).

(** A tree exists only together with a target. *)
Definition target_backed (self : AiZynthFinder) : Prop :=
  tree self = None \/ is_Some (_target_mol self).

Definition preserves {A} (P : AiZynthFinder -> Prop) (m : M A) : Prop :=
  forall self self', P self -> leaves m self self' -> P self'.

End Controller.

Arguments Return {chem stk pol trs ana A} a self.
Arguments Raise {chem stk pol trs ana A} e self.
Arguments Diverge {chem stk pol trs ana A}.

(** ** Test doubles for the collaborators

    Small executable stand-ins for the collaborator interfaces, on which the
    controller can be run. *)

Module Doubles.

(** A value that is a string or a list of strings. *)
Fixpoint str_list (l : list pyval) : option (list string) :=
  match l with
  | [] => Some []
  | PStr s :: l' => cons s <$> str_list l'
  | _ => None
  end.

Definition selection_of (v : pyval) : ExtErr + list string :=
  match v with
  | PStr s => inr [s]
  | PList l =>
      match str_list l with
      | Some ss => inr ss
      | None => inl "invalid selection"
      end
  | _ => inl "invalid selection"
  end.

(** Molecules are their SMILES strings; the empty string does not parse. *)
Definition string_chem : ChemOps := {|
  Mol := string;
  Molecule v :=
    match v with
    | PStr s => if String.eqb s "" then inl "invalid smiles" else inr s
    | _ => inl "invalid smiles"
    end;
  mol_smiles m := m
|}.

Record StockD : Type := mkStockD {
  stock_sel : list string;
  stock_excl : list string
}.

(** One inventory that holds ethanol and benzene. *)
Definition in_inventory (m : string) : bool :=
  String.eqb m "CCO" || String.eqb m "c1ccccc1".

Definition list_stock : @StockOps string_chem := {|
  Stock := StockD;
  stock_select v st :=
    match selection_of v with
    | inr ss => inr (mkStockD ss (stock_excl st))
    | inl e => inl e
    end;
  stock_selection := stock_sel;
  reset_exclusion_list st := mkStockD (stock_sel st) [];
  stock_contains (m : option (@Mol string_chem)) st :=
    match m with
    | Some m =>
        inr (in_inventory m && negb (existsb (String.eqb m) (stock_excl st)))
    | None => inl "no molecule"
    end;
  stock_exclude (m : option (@Mol string_chem)) st :=
    match m with
    | Some m => inr (mkStockD (stock_sel st) (m :: stock_excl st))
    | None => inl "no molecule"
    end
|}.

Definition list_policy : PolicyOps := {|
  Policy := list string;
  policy_select v _ := selection_of v;
  policy_deselect _ := [];
  policy_selection p := p
|}.

(** A tree that is one chain of nodes, a node being its depth.  Nodes at
    depth [max_depth] are terminal; nodes from depth [cap] on have no
    promising child.  With [mark] set, a node found without a promising
    child is recorded as dead and tests terminal from then on.  The node at
    depth [max_depth] counts as solved from the [solved_after]-th
    backpropagation on. *)
Record ChainTree : Type := mkChain {
  expansions : nat;
  dead : list nat;
  visits : nat
}.

Definition chain_tree (mark : bool) (max_depth cap solved_after : nat)
  : @TreeOps string_chem list_stock list_policy := {|
  Tree := ChainTree;
  Node := nat;
  Score := nat;
  SearchTree _ _ _ _ _ := inr (mkChain 0 [] 0);
  select_leaf t := (0%nat, t);
  expand _ t := mkChain (S (expansions t)) (dead t) (visits t);
  is_terminal n t := (max_depth <=? n)%nat || existsb (Nat.eqb n) (dead t);
  promising_child n t :=
    if (n <? cap)%nat then (Some (S n), t)
    else (None, if mark then mkChain (expansions t) (n :: dead t) (visits t) else t);
  state_score n _ := n;
  state_is_solved n t := (n =? max_depth)%nat && (solved_after <=? visits t)%nat;
  backpropagate _ _ t := mkChain (expansions t) (dead t) (S (visits t))
|}.

(** The analysis remembers how often the tree was visited; a route
    collection is a list of node counts and a flag telling whether scores
    were computed. *)
Definition chain_analysis (mark : bool) (max_depth cap solved_after : nat)
  : @AnalysisOps string_chem list_stock list_policy
      (chain_tree mark max_depth cap solved_after) := {|
  Scorer := string;
  Analysis := nat;
  Routes := list nat * bool;
  RouteDicts := list nat * bool;
  scorers_lookup s :=
    if String.eqb s "state score" then inr s else inl "unknown scorer";
  scorers_objects := ["state score"%string];
  TreeAnalysis (t : option (@Tree _ _ _ (chain_tree mark max_depth cap solved_after))) _ :=
    match t with
    | Some t => inr (visits t)
    | None => inl "no tree"
    end;
  tree_statistics a := {["number_of_nodes" := PNum (Z.of_nat a)]};
  from_analysis a _ := inr ([a], false);
  routes_dicts r := (r.1, false);
  compute_scores _ r := inr (r.1, true);
  dict_with_scores r := r
|}.

(** A well-behaved tree of depth 3, solved at the third iteration. *)
Definition good : AnalysisOps := chain_analysis true 3 5 3.
(** The same tree, solved at the first iteration. *)
Definition quick : AnalysisOps := chain_analysis true 3 5 1.

Definition cfg0 : Configuration :=
  mkConfiguration (PNum 1) (PNum 6) (PNum 1) (PNum 50) (PBool false)
    (PNum 120) (PNum 100) (PBool true) (PNum 0).

(** Wall-clock readings: the two readings before the loop coincide, every
    iteration takes 7 ticks. *)
Definition clock7 (n : nat) : Z := 1000 + 7 * Z.of_nat (n - 1).

Definition request0 : gmap string pyval :=
  <["stocks" := PList [PStr "zinc"]]>
  (<["policy" := PStr "uspto"]>
  (<["C" := PNum 1]>
  (<["max_transforms" := PNum 6]>
  (<["cutoff_cumulative" := PNum 1]>
  (<["cutoff_number" := PNum 50]>
  (<["smiles" := PStr "CCO"]>
  (<["return_first" := PBool true]>
  (<["time_limit" := PNum 120]>
  (<["iteration_limit" := PNum 100]>
  (<["exclude_target_from_stock" := PBool true]>
  (<["filter_cutoff" := PNum 0]> ∅))))))))))).

(** Controllers to run: a new one, and one with the target ethanol and the
    selections made, without a tree. *)
Section Start.
Context {trs : @TreeOps string_chem list_stock list_policy}
        {ana : @AnalysisOps string_chem list_stock list_policy trs}.

Definition fresh : AiZynthFinder :=
  new_finder (ana := ana) cfg0 [] [] (mkStockD [] []).

Definition aimed (cfg : Configuration) : AiZynthFinder :=
  mkFinder (ana := ana) cfg ["uspto"%string] []
    (mkStockD ["zinc"%string] []) None (Some "CCO"%string) no_stats None None.

End Start.

Definition cfg_first : Configuration := set_return_first (PBool true) cfg0.

(** The well-behaved controller with a new tree in place. *)
Definition planted (cfg : Configuration) : AiZynthFinder :=
  set_tree (ana := good) (Some (mkChain 0 [] 0)) (aimed (ana := good) cfg).

End Doubles.

(** * Properties *)

Section Properties.
Context {chem : ChemOps} {stk : StockOps} {pol : PolicyOps}
        {trs : TreeOps} {ana : AnalysisOps}.

(** ** Sequencing *)

Lemma bind_Return_inv {A B} (m : M A) (k : A -> M B) self b self2 :
  bind m k self = Return b self2 ->
  exists a self1, m self = Return a self1 /\ k a self1 = Return b self2.
Proof.
  unfold bind. destruct (m self) as [a self1| |]; try discriminate.
  intros Hk. exists a, self1. split; [reflexivity | exact Hk].
Qed.

Lemma bind_leaves_inv {A B} (m : M A) (k : A -> M B) self self2 :
  leaves (bind m k) self self2 ->
  (exists e, m self = Raise e self2) \/
  (exists a self1, m self = Return a self1 /\ leaves (k a) self1 self2).
Proof.
  unfold leaves, bind. destruct (m self) as [a self1|e self1|].
  - intros Hk. right. exists a, self1. split; [reflexivity | exact Hk].
  - intros [[b Hb]|[e' He']]; [discriminate|]. left. exists e. congruence.
  - intros [[b Hb]|[e' He']]; discriminate.
Qed.

(** ** Target setters and preparation *)

Lemma set_target_mol_eq mol self :
  set_target_mol mol self = Return tt (set__target_mol mol (set_tree None self)).
Proof. reflexivity. Qed.

Ltac run_prepare :=
  unfold prepare_tree, bind, assign, external, target_smiles, ret, target_mol;
  simpl; repeat case_match; simpl.

Lemma prepare_tree_Return self self' :
  prepare_tree self = Return tt self' ->
  is_Some (_target_mol self) /\ is_Some (tree self') /\
  analysis self' = None /\ routes self' = None /\
  _target_mol self' = _target_mol self /\ config self' = config self /\
  expansion_policy self' = expansion_policy self /\
  filter_policy self' = filter_policy self /\
  search_stats self' = search_stats self.
Proof.
  run_prepare; intros Heq; simplify_eq; simpl; eauto 10.
Qed.

Lemma prepare_tree_Raise self e self' :
  prepare_tree self = Raise e self' ->
  (e = AttributeError "smiles" /\ _target_mol self = None \/ is_external e) /\
  tree self' = tree self /\ analysis self' = analysis self /\
  routes self' = routes self /\ _target_mol self' = _target_mol self /\
  config self' = config self /\ search_stats self' = search_stats self.
Proof.
  unfold is_external.
  run_prepare; intros Heq; simplify_eq; simpl; eauto 10.
Qed.

Lemma prepare_tree_converges self : prepare_tree self <> Diverge.
Proof. run_prepare; discriminate. Qed.

Lemma prepare_tree_without_target self :
  _target_mol self = None -> exists e self', prepare_tree self = Raise e self'.
Proof.
  intros Hnone. destruct (prepare_tree self) as [[] self'|e self'|] eqn:Hp.
  - apply prepare_tree_Return in Hp as [[mol Hmol] _]. congruence.
  - eauto.
  - exfalso. exact (prepare_tree_converges _ Hp).
Qed.


(** C4 (amended).  Assigning a target clears the tree and nothing else:
    analysis and routes are what they were.  They are cleared by
    [prepare_tree], which on success leaves a tree and neither analysis
    nor routes. *)
Theorem target_setter_clears_tree_only (mol : option Mol) (self : AiZynthFinder) :
  (exists self',
     set_target_mol mol self = Return tt self' /\
     tree self' = None /\ _target_mol self' = mol /\
     analysis self' = analysis self /\ routes self' = routes self /\
     search_stats self' = search_stats self) /\
  (forall self',
     prepare_tree self = Return tt self' ->
     is_Some (tree self') /\ analysis self' = None /\ routes self' = None).
Proof.
  split.
  - eexists. split; [apply set_target_mol_eq|]. simpl. auto.
  - intros self' Hp. apply prepare_tree_Return in Hp. tauto.
Qed.

(** ** The descent *)




Lemma descend_ends_terminal fuel : forall leaf t leaf' t',
  descend fuel leaf t = Some (leaf', t') -> is_terminal leaf' t' = true.
Proof.
  induction fuel as [|fuel IH]; intros leaf t leaf' t'; simpl.
  - destruct (is_terminal leaf t) eqn:Ht; [|discriminate].
    intros Heq. simplify_eq. exact Ht.
  - destruct (is_terminal leaf t) eqn:Ht.
    + intros Heq. simplify_eq. exact Ht.
    + destruct (promising_child leaf t) as [[child|] t1]; apply IH.
Qed.



(** ** The search loop *)

Lemma same_setup_refl self : same_setup self self.
Proof. unfold same_setup. tauto. Qed.

Lemma same_setup_trans s1 s2 s3 :
  same_setup s1 s2 -> same_setup s2 s3 -> same_setup s1 s3.
Proof. unfold same_setup. intuition congruence. Qed.

Lemma search_loop_setup gas fuel clock time0 : forall reads i tp self,
  match search_loop gas fuel clock time0 reads i tp self with
  | Return _ self' | Raise _ self' => same_setup self self'
  | Diverge => True
  end.
Proof.
  induction fuel as [|fuel IH]; intros reads i tp self; simpl;
    destruct (py_lt tp (time_limit (config self))) as [e|[]];
    try apply same_setup_refl;
    destruct (py_le i (iteration_limit (config self))) as [e|[]];
    try apply same_setup_refl; try exact I.
  destruct (iterations (search_stats self)) as [n|]; [|apply same_setup_refl].
  destruct (tree self) as [t|] eqn:Htree; simpl.
  2:{ unfold same_setup; simpl. rewrite Htree. tauto. }
  destruct (one_iteration gas t) as [[leaf t']|]; [|exact I].
  match goal with |- context [search_loop _ _ _ _ _ _ _ ?s2] =>
    assert (Hs2 : same_setup self s2)
      by (unfold same_setup; simpl; rewrite Htree; intuition (eauto || discriminate))
  end.
  destruct (py_truthy (return_first (config self)) && state_is_solved leaf t').
  - unfold same_setup; simpl. rewrite Htree. intuition (eauto || discriminate).
  - match goal with |- context [search_loop ?a ?b ?c ?d ?e ?f ?g ?s2] =>
      specialize (IH e f g s2);
      destruct (search_loop a b c d e f g s2)
    end; try exact I; eapply same_setup_trans; eassumption.
Qed.

Lemma search_loop_iterations gas fuel clock time0 L :
  forall reads i tp self tp' self',
    iteration_limit (config self) = PNum L ->
    iterations (search_stats self) = Some (i - 1) ->
    i - 1 <= L ->
    search_loop gas fuel clock time0 reads i tp self = Return tp' self' ->
    exists n, iterations (search_stats self') = Some n /\ i - 1 <= n <= L.
Proof.
  induction fuel as [|fuel IH]; intros reads i tp self tp' self' HL Hit Hle; simpl;
    destruct (py_lt tp (time_limit (config self))) as [e|[]]; try discriminate;
    try (intros Heq; simplify_eq; exists (i - 1); split; [assumption | lia]);
    unfold py_le; rewrite HL; simpl;
    destruct (Z.leb_spec i L) as [Hi|Hi]; try discriminate;
    try (intros Heq; simplify_eq; exists (i - 1); split; [assumption | lia]).
  rewrite Hit.
  destruct (tree self) as [t|]; simpl; [|discriminate].
  destruct (one_iteration gas t) as [[leaf t']|]; [|discriminate].
  destruct (py_truthy (return_first (config self)) && state_is_solved leaf t').
  - intros Heq. simplify_eq. simpl. exists (i - 1 + 1). split; [reflexivity | lia].
  - intros Hloop. apply IH in Hloop; simpl; try assumption.
    + destruct Hloop as (n & Hn & Hbound). exists n. split; [exact Hn | lia].
    + f_equal. lia.
    + lia.
Qed.

Lemma tree_search_Return_inv fuel clock self tp self' :
  tree_search fuel clock self = Return tp self' ->
  exists self0 self1,
    (tree self = None /\ prepare_tree self = Return tt self0 \/
     is_Some (tree self) /\ self0 = self) /\
    search_loop fuel fuel clock (clock 0%nat) 2 1 (clock 1%nat - clock 0%nat)
      (set_search_stats (mkStats (Some false) (Some 0) None) self0)
      = Return tp self1 /\
    self' = set_search_stats (set_time (Some tp) (search_stats self1)) self1.
Proof.
  unfold tree_search. intros Hts.
  apply bind_Return_inv in Hts as ([] & self0 & Hprep & Hts).
  apply bind_Return_inv in Hts as ([] & self0' & Hassign & Hts).
  apply bind_Return_inv in Hts as (tp0 & self1 & Hloop & Hts).
  apply bind_Return_inv in Hts as ([] & self1' & Hassign' & Hts).
  unfold assign, ret in *. simplify_eq.
  exists self0, self1. split; [|split; [exact Hloop | reflexivity]].
  destruct (tree self) as [t|] eqn:Htree.
  - right. simplify_eq. split; [eauto | reflexivity].
  - left. split; [reflexivity | exact Hprep].
Qed.

(** C7.  With an iteration limit [L] that is a count, the number of
    iterations recorded by a search that returns is at most [L]. *)
Theorem iterations_within_limit fuel clock self L tp self' :
  iteration_limit (config self) = PNum L ->
  0 <= L ->
  tree_search fuel clock self = Return tp self' ->
  exists n, iterations (search_stats self') = Some n /\ 0 <= n <= L.
Proof.
  intros HL Hpos Hts.
  apply tree_search_Return_inv in Hts as (self0 & self1 & Hprep & Hloop & ->).
  assert (Hcfg : config self0 = config self).
  { destruct Hprep as [[_ Hp]|[_ ->]]; [|reflexivity].
    apply prepare_tree_Return in Hp. tauto. }
  apply (search_loop_iterations _ _ _ _ L) in Hloop; simpl.
  - destruct Hloop as (n & Hn & Hbound). exists n. split; [exact Hn | lia].
  - rewrite Hcfg. exact HL.
  - reflexivity.
  - lia.
Qed.

Lemma search_loop_time_exhausted gas fuel clock time0 reads i tp self n :
  time_limit (config self) = PNum n -> n <= tp ->
  search_loop gas fuel clock time0 reads i tp self = Return tp self.
Proof.
  intros Hlim Hle.
  destruct fuel; simpl; unfold py_lt; rewrite Hlim; simpl;
    destruct (Z.ltb_spec tp n); try lia; reflexivity.
Qed.

(** C8.  With [time_limit = 0] and a clock that does not run backwards
    between the two readings taken before the loop, [tree_search] performs
    no iteration: it returns the controller as the (possibly implicit)
    preparation left it, with the fresh statistics [iterations = 0],
    [returned_first = False] and the elapsed time; it fails only if the
    implicit preparation fails. *)
Theorem zero_time_limit_no_iteration fuel clock self :
  time_limit (config self) = PNum 0 ->
  clock 0%nat <= clock 1%nat ->
  match tree_search fuel clock self with
  | Return tp self' =>
      iterations (search_stats self') = Some 0 /\
      returned_first (search_stats self') = Some false /\
      tp = clock 1%nat - clock 0%nat /\
      exists self0,
        (tree self = None /\ prepare_tree self = Return tt self0 \/
         is_Some (tree self) /\ self0 = self) /\
        tree self' = tree self0 /\
        self' = set_search_stats (mkStats (Some false) (Some 0) (Some tp)) self0
  | Raise e self' => tree self = None /\ prepare_tree self = Raise e self'
  | Diverge => False
  end.
Proof.
  intros Hlim Hclock. unfold tree_search, bind, assign, ret.
  destruct (tree self) as [t|] eqn:Htree.
  - rewrite (search_loop_time_exhausted _ _ _ _ _ _ _ _ 0); simpl;
      [|exact Hlim|lia].
    repeat split. exists self. rewrite Htree. repeat split. right. eauto.
  - destruct (prepare_tree self) as [[] self0|e self0|] eqn:Hprep.
    + assert (Hcfg : config self0 = config self)
        by (apply prepare_tree_Return in Hprep; tauto).
      rewrite (search_loop_time_exhausted _ _ _ _ _ _ _ _ 0); simpl;
        [|rewrite Hcfg; exact Hlim|lia].
      repeat split. exists self0. repeat split. left. eauto.
    + split; reflexivity.
    + exact (prepare_tree_converges _ Hprep).
Qed.

(** ** Return on the first solution *)






(** ** The recorded time *)

Lemma search_loop_time gas fuel clock time0 :
  forall reads i tp self (n : nat) tp' self',
    iterations (search_stats self) = Some (Z.of_nat n) ->
    returned_first (search_stats self) = Some false ->
    reads = (n + 2)%nat ->
    tp = clock (S n) - time0 ->
    search_loop gas fuel clock time0 reads i tp self = Return tp' self' ->
    exists n' : nat,
      iterations (search_stats self') = Some (Z.of_nat n') /\
      (returned_first (search_stats self') = Some true /\
       (1 <= n')%nat /\ tp' = clock n' - time0
       \/
       returned_first (search_stats self') = Some false /\
       tp' = clock (S n') - time0).
Proof.
  induction fuel as [|fuel IH];
    intros reads i tp self n tp' self' Hit Hfirst Hreads Htp; simpl;
    destruct (py_lt tp (time_limit (config self))) as [e|[]]; try discriminate;
    try solve [intros Heq; simplify_eq; exists n; auto];
    destruct (py_le i (iteration_limit (config self))) as [e|[]]; try discriminate;
    try solve [intros Heq; simplify_eq; exists n; auto].
  rewrite Hit.
  destruct (tree self) as [t|]; simpl; [|discriminate].
  destruct (one_iteration gas t) as [[leaf t']|]; [|discriminate].
  destruct (py_truthy (return_first (config self)) && state_is_solved leaf t').
  - intros Heq. simplify_eq. simpl. exists (S n).
    split; [f_equal; lia|]. left. split; [reflexivity|]. split; [lia|reflexivity].
  - intros Hloop.
    apply (IH _ _ _ _ (S n)) in Hloop; simpl; try assumption.
    + f_equal. lia.
    + lia.
    + subst reads. f_equal. f_equal. lia.
Qed.

(** C5 (what the code does).  The time that a returning search records and
    returns is [clock k - clock 0] for a reading [k] that depends on the
    exit.  After [n] iterations that ended by the loop condition, it is the
    reading taken at the end of iteration [n] (reading [n + 1]).  On the
    early return in iteration [n], it is reading [n], taken before
    iteration [n] began: the winning iteration is not part of the recorded
    time. *)
Theorem recorded_time_by_exit fuel clock self tp self' :
  tree_search fuel clock self = Return tp self' ->
  time (search_stats self') = Some tp /\
  exists n : nat,
    iterations (search_stats self') = Some (Z.of_nat n) /\
    (returned_first (search_stats self') = Some true /\
     (1 <= n)%nat /\ tp = clock n - clock 0%nat
     \/
     returned_first (search_stats self') = Some false /\
     tp = clock (S n) - clock 0%nat).
Proof.
  intros Hts.
  apply tree_search_Return_inv in Hts as (self0 & self1 & Hprep & Hloop & ->).
  split; [reflexivity|].
  apply (search_loop_time _ _ _ _ _ _ _ _ 0%nat) in Hloop;
    [exact Hloop | reflexivity | reflexivity | reflexivity | reflexivity].
Qed.

(** ** Reading a request *)

Ltac head_scrutinee t :=
  lazymatch t with
  | match ?x with _ => _ end => head_scrutinee x
  | (match ?x with _ => _ end) _ => head_scrutinee x
  | _ => t
  end.

Ltac fields :=
  cbn [config expansion_policy filter_policy stock tree _target_mol search_stats
       routes analysis set_config set_expansion_policy set_filter_policy
       set_stock set_tree set__target_mol set_search_stats set_routes
       set_analysis
       C max_transforms cutoff_cumulative cutoff_number return_first time_limit
       iteration_limit exclude_target_from_stock filter_cutoff
       set_C set_max_transforms set_cutoff_cumulative set_cutoff_number
       set_return_first set_time_limit set_iteration_limit
       set_exclude_target_from_stock set_filter_cutoff].

Ltac expose_settings :=
  unfold apply_settings, set_target_smiles, set_target_mol;
  unfold bind, subscript, external, assign, ret; cbv beta.

Lemma run_from_json_factors fuel clock params self :
  run_from_json fuel clock params self =
  bind (apply_settings params) (fun _ => search_and_report fuel clock params) self.
Proof.
  unfold run_from_json. fold (search_and_report fuel clock params).
  generalize (search_and_report fuel clock params). intros rest.
  expose_settings.
  repeat (match goal with
          | |- _ = ?r =>
              let x := head_scrutinee r in
              destruct x; cbv beta iota; try reflexivity
          end).
Qed.

Lemma required_key_cases key :
  key ∈ required_keys ->
  key = "stocks" \/ key = "C" \/ key = "max_transforms" \/
  key = "cutoff_cumulative" \/ key = "cutoff_number" \/ key = "smiles" \/
  key = "return_first" \/ key = "time_limit" \/ key = "iteration_limit" \/
  key = "exclude_target_from_stock" \/ key = "filter_cutoff".
Proof.
  intros Hin. apply list_elem_of_In in Hin. simpl in Hin.
  intuition (subst; auto 12).
Qed.

Ltac missing_key :=
  left; eexists; split; [reflexivity|];
  split; [apply list_elem_of_In; simpl; tauto | assumption].

Lemma apply_settings_Raise params self e self' :
  apply_settings params self = Raise e self' ->
  (missing_field params e \/ is_external e) /\
  (tree self' = tree self \/ tree self' = None) /\
  analysis self' = analysis self /\ routes self' = routes self /\
  search_stats self' = search_stats self /\
  (e = KeyError "time_limit" ->
   exists vs mol,
     params !! "stocks" = Some vs /\
     stock_select vs (stock self) = inr (stock self') /\
     policy_select (policy_argument params) (expansion_policy self)
       = inr (expansion_policy self') /\
     tree self' = None /\ _target_mol self' = Some mol).
Proof.
  unfold is_external.
  destruct self as [[] ep fp st tr tg ss ro an].
  expose_settings. fields.
  repeat lazymatch goal with
         | |- Raise _ _ = Raise _ _ -> _ =>
             intros Heq; injection Heq as <- <-; fields;
             (split; [first [missing_key | right; eexists; reflexivity]|]);
             (split; [auto|]); (split; [reflexivity|]); (split; [reflexivity|]);
             (split; [reflexivity|]);
             first [ solve [intros [=]]
                   | intros _; do 2 eexists;
                     repeat split; first [reflexivity | eassumption] ]
         | |- Return _ _ = Raise _ _ -> _ => discriminate
         | |- ?l = _ -> _ =>
             let x := head_scrutinee l in
             destruct x eqn:?; cbv beta iota; fields
         end.
Qed.

Lemma apply_settings_converges params self :
  apply_settings params self <> Diverge.
Proof.
  destruct self as [[] ep fp st tr tg ss ro an].
  expose_settings. fields.
  repeat lazymatch goal with
         | |- Raise _ _ <> _ => discriminate
         | |- Return _ _ <> _ => discriminate
         | |- ?l <> _ =>
             let x := head_scrutinee l in
             destruct x; cbv beta iota; fields
         end.
Qed.

Lemma apply_settings_Return params self self' :
  apply_settings params self = Return tt self' ->
  (forall key, key ∈ required_keys -> is_Some (params !! key)) /\
  tree self' = None /\ analysis self' = analysis self /\
  routes self' = routes self /\ search_stats self' = search_stats self.
Proof.
  destruct self as [[] ep fp st tr tg ss ro an].
  expose_settings. fields.
  repeat lazymatch goal with
         | |- Raise _ _ = Return _ _ -> _ => discriminate
         | |- Return _ _ = Return _ _ -> _ =>
             intros Heq; injection Heq as <-; (split; [|simpl; auto]);
             intros key Hkey; apply required_key_cases in Hkey;
             repeat (destruct Hkey as [->|Hkey]; [eexists; eassumption|]);
             subst; eexists; eassumption
         | |- ?l = _ -> _ =>
             let x := head_scrutinee l in
             destruct x eqn:?; cbv beta iota; fields
         end.
Qed.

Lemma missing_key_raises fuel clock params self key :
  key ∈ required_keys -> params !! key = None ->
  exists e self',
    apply_settings params self = Raise e self' /\
    run_from_json fuel clock params self = Raise e self'.
Proof.
  intros Hkey Hnone.
  rewrite run_from_json_factors. unfold bind at 1.
  destruct (apply_settings params self) as [[] self'|e self'|] eqn:Hset.
  - apply apply_settings_Return in Hset as [Hall _].
    destruct (Hall _ Hkey) as [v Hv]. congruence.
  - eauto.
  - destruct (apply_settings_converges _ _ Hset).
Qed.

(** C2 (amended).  A request without [time_limit] makes [run_from_json]
    raise while it still reads the request: no tree is constructed (the
    tree is untouched or cleared), and statistics, analysis and routes are
    untouched.  The error is the lookup failure of a required key that the
    request lacks, or an error of a collaborator.  When it is the lookup
    failure of [time_limit], the stock and the expansion policy have
    already been given the selections of the request, and the target has
    been replaced. *)
Theorem run_from_json_without_time_limit fuel clock params self :
  params !! "time_limit" = None ->
  exists e self',
    run_from_json fuel clock params self = Raise e self' /\
    (missing_field params e \/ is_external e) /\
    (tree self' = tree self \/ tree self' = None) /\
    analysis self' = analysis self /\ routes self' = routes self /\
    search_stats self' = search_stats self /\
    (e = KeyError "time_limit" ->
     exists vs mol,
       params !! "stocks" = Some vs /\
       stock_select vs (stock self) = inr (stock self') /\
       policy_select (policy_argument params) (expansion_policy self)
         = inr (expansion_policy self') /\
       tree self' = None /\ _target_mol self' = Some mol).
Proof.
  intros Hnone.
  destruct (missing_key_raises fuel clock params self "time_limit")
    as (e & self' & Hset & Hrun); [|exact Hnone|].
  { apply list_elem_of_In. simpl. tauto. }
  exists e, self'. split; [exact Hrun|].
  exact (apply_settings_Raise _ _ _ _ Hset).
Qed.

Lemma subscript_insert_ne (params : gmap string pyval) k v k' :
  k <> k' -> subscript (<[k := v]> params) k' = subscript params k'.
Proof. intros Hne. unfold subscript. rewrite lookup_insert_ne by exact Hne. reflexivity. Qed.

(** C3 (amended).  When a key that [run_from_json] reads with
    [params[...]] is absent, the call raises: the lookup failure of a
    required key that the request lacks, or an error that a collaborator
    raised before that lookup.  The policy is read with a default instead:
    a request with neither [policy] nor [policies] is run exactly as the
    same request with [policy] set to the empty string. *)
Theorem run_from_json_missing_key fuel clock params self :
  (forall key, key ∈ required_keys -> params !! key = None ->
     exists e self',
       run_from_json fuel clock params self = Raise e self' /\
       (missing_field params e \/ is_external e)) /\
  (params !! "policy" = None -> params !! "policies" = None ->
     policy_argument params = PStr "" /\
     run_from_json fuel clock params self
       = run_from_json fuel clock (<["policy" := PStr ""]> params) self).
Proof.
  split.
  - intros key Hkey Hnone.
    destruct (missing_key_raises fuel clock params self key Hkey Hnone)
      as (e & self' & Hset & Hrun).
    exists e, self'. split; [exact Hrun|].
    apply apply_settings_Raise in Hset. tauto.
  - intros Hp Hps.
    assert (Harg : policy_argument params = PStr "")
      by (unfold policy_argument; rewrite Hp, Hps; reflexivity).
    split; [exact Harg|].
    unfold run_from_json.
    rewrite !subscript_insert_ne by discriminate.
    rewrite !(lookup_insert_ne params "policy") by discriminate.
    replace (policy_argument (<["policy" := PStr ""]> params)) with (PStr "");
      [rewrite Harg; reflexivity|].
    unfold policy_argument. rewrite lookup_insert_eq. reflexivity.
Qed.

(** ** Serialised settings *)

Lemma _get_settings_Return self d self' :
  _get_settings self = Return d self' ->
  self' = self /\
  policy_key_rule (policy_selection (expansion_policy self)) d.
Proof.
  unfold _get_settings, bind, target_smiles, policy_key_rule.
  destruct (_target_mol self) as [mol|]; [|destruct (policy_selection _) as [|? [|? ?]]; discriminate].
  destruct (policy_selection (expansion_policy self)) as [|p [|q sel]] eqn:Hsel;
    destruct (policy_selection (filter_policy self)) as [|f fsel];
    intros Heq; simplify_eq; (split; [reflexivity|]);
    (split; [intros p' Hp'; simplify_eq | simpl; intros Hlen; try lia]);
    split; simplify_map_eq; reflexivity.
Qed.

Lemma search_and_report_Return fuel clock params self resp self' :
  search_and_report fuel clock params self = Return resp self' ->
  _get_settings self' = Return (request resp) self'.
Proof.
  unfold search_and_report. intros Hrun.
  apply bind_Return_inv in Hrun as ([] & s1 & _ & Hrun).
  apply bind_Return_inv in Hrun as (tp & s2 & _ & Hrun).
  apply bind_Return_inv in Hrun as ([] & s3 & _ & Hrun).
  destruct (negb (py_truthy (default (PBool false) (params !! "score_trees")))).
  - apply bind_Return_inv in Hrun as (req & s4 & Hget & Hrun).
    apply bind_Return_inv in Hrun as (r & s5 & Hr & Hrun).
    unfold ret, the_routes in *. destruct (routes s4); simplify_eq.
    simpl. destruct (_get_settings_Return _ _ _ Hget) as [-> _]. exact Hget.
  - apply bind_Return_inv in Hrun as (r & s4 & _ & Hrun).
    apply bind_Return_inv in Hrun as (r' & s5 & _ & Hrun).
    apply bind_Return_inv in Hrun as ([] & s6 & _ & Hrun).
    apply bind_Return_inv in Hrun as (req & s7 & Hget & Hrun).
    apply bind_Return_inv in Hrun as (r2 & s8 & Hr & Hrun).
    unfold ret, the_routes in *. destruct (routes s7); simplify_eq.
    simpl. destruct (_get_settings_Return _ _ _ Hget) as [-> _]. exact Hget.
Qed.

(** C9.  [_get_settings] emits a single active expansion policy under the
    key [policy] (and no key [policies]), and two or more under the key
    [policies] as the whole ordered selection (and no key [policy]); the
    [request] record of every response of [run_from_json] is built this way
    from the selection the controller ends with. *)
Theorem policy_key_by_selection_size :
  (forall self d self',
     _get_settings self = Return d self' ->
     policy_key_rule (policy_selection (expansion_policy self)) d) /\
  (forall fuel clock params self resp self',
     run_from_json fuel clock params self = Return resp self' ->
     policy_key_rule (policy_selection (expansion_policy self')) (request resp)).
Proof.
  split.
  - intros self d self' Hget. apply _get_settings_Return in Hget. tauto.
  - intros fuel clock params self resp self' Hrun.
    rewrite run_from_json_factors in Hrun.
    apply bind_Return_inv in Hrun as ([] & s1 & _ & Hrun).
    apply search_and_report_Return in Hrun.
    apply _get_settings_Return in Hrun. tauto.
Qed.

(** ** Controllers without a target *)

Lemma preserves_bind {A B} P (m : M A) (k : A -> M B) :
  preserves P m -> (forall a, preserves P (k a)) -> preserves P (bind m k).
Proof.
  intros Hm Hk self self2 HP Hleaves.
  apply bind_leaves_inv in Hleaves as [[e He]|(a & self1 & Ha & Hleaves)].
  - apply (Hm self self2 HP). right. eauto.
  - apply (Hk a self1 self2); [|exact Hleaves].
    apply (Hm self self1 HP). left. eauto.
Qed.

Lemma preserves_assign P (f : AiZynthFinder -> AiZynthFinder) :
  (forall self, P self -> P (f self)) -> preserves P (assign f).
Proof.
  intros Hf self self' HP [[a Ha]|[e He]]; unfold assign in *; simplify_eq.
  apply Hf, HP.
Qed.

Lemma preserves_unchanged {A} P (m : M A) :
  (forall self self', leaves m self self' -> self' = self) -> preserves P m.
Proof. intros Hm self self' HP Hl. rewrite (Hm _ _ Hl). exact HP. Qed.

Lemma external_unchanged {A} (r : ExtErr + A) self self' :
  leaves (external r) self self' -> self' = self.
Proof. unfold leaves, external. destruct r; intros [[? ?]|[? ?]]; congruence. Qed.

Lemma subscript_unchanged params key self self' :
  leaves (subscript params key) self self' -> self' = self.
Proof.
  unfold leaves, subscript. destruct (params !! key); intros [[? ?]|[? ?]]; congruence.
Qed.

Lemma the_routes_unchanged self self' :
  leaves the_routes self self' -> self' = self.
Proof.
  unfold leaves, the_routes. destruct (routes self); intros [[? ?]|[? ?]]; congruence.
Qed.

Lemma target_smiles_unchanged self self' :
  leaves target_smiles self self' -> self' = self.
Proof.
  unfold leaves, target_smiles.
  destruct (_target_mol self); intros [[? ?]|[? ?]]; congruence.
Qed.

Lemma ret_unchanged {A} (a : A) self self' :
  leaves (ret a) self self' -> self' = self.
Proof. unfold leaves, ret. intros [[? ?]|[? ?]]; congruence. Qed.

Lemma _get_settings_unchanged self self' :
  leaves _get_settings self self' -> self' = self.
Proof.
  unfold leaves, _get_settings, bind, target_smiles.
  destruct (policy_selection (expansion_policy self)) as [|? [|? ?]];
    destruct (_target_mol self);
    destruct (policy_selection (filter_policy self));
    intros [[? ?]|[? ?]]; congruence.
Qed.

Lemma extract_statistics_unchanged self self' :
  leaves extract_statistics self self' -> self' = self.
Proof.
  unfold leaves, extract_statistics, bind, target_smiles.
  destruct (analysis self); destruct (_target_mol self);
    try destruct (time (search_stats self));
    intros [[? ?]|[? ?]]; congruence.
Qed.

Lemma backed_set_target_mol mol : preserves target_backed (set_target_mol mol).
Proof.
  intros self self' _ [[a Ha]|[e He]]; rewrite set_target_mol_eq in *; simplify_eq.
  left. reflexivity.
Qed.

Lemma backed_set_target_smiles v : preserves target_backed (set_target_smiles v).
Proof.
  apply preserves_bind.
  - apply preserves_unchanged. intros self self'. apply external_unchanged.
  - intros mol. apply backed_set_target_mol.
Qed.

Lemma backed_build_routes n sc : preserves target_backed (build_routes n sc).
Proof.
  assert (Hfield : forall f : AiZynthFinder -> AiZynthFinder,
             (forall s, tree (f s) = tree s /\ _target_mol (f s) = _target_mol s) ->
             preserves target_backed (assign f)).
  { intros f Hf. apply preserves_assign. intros s. unfold target_backed.
    destruct (Hf s) as [-> ->]. tauto. }
  apply preserves_bind.
  - apply preserves_unchanged. intros self self'. apply external_unchanged.
  - intros scorer self self'. apply preserves_bind.
    + apply preserves_unchanged. intros s s'. apply external_unchanged.
    + intros a. apply preserves_bind; [apply Hfield; auto|].
      intros _. apply preserves_bind.
      * apply preserves_unchanged. intros s s'. apply external_unchanged.
      * intros r. apply Hfield. auto.
Qed.

Lemma backed_prepare_tree : preserves target_backed prepare_tree.
Proof.
  intros self self' Hb [[[] Hr]|[e Hr]].
  - apply prepare_tree_Return in Hr as (Hmol & _ & _ & _ & Htarget & _).
    right. rewrite Htarget. exact Hmol.
  - apply prepare_tree_Raise in Hr as (_ & Htree & _ & _ & Htarget & _).
    unfold target_backed. rewrite Htree, Htarget. exact Hb.
Qed.

Lemma backed_same_setup self self' :
  same_setup self self' -> target_backed self -> target_backed self'.
Proof.
  unfold same_setup, target_backed.
  intros (_ & _ & _ & _ & Htarget & _ & _ & Hnone & _) [Ht|Hm].
  - left. auto.
  - right. rewrite Htarget. exact Hm.
Qed.

Lemma backed_search_loop gas fuel clock time0 reads i tp :
  preserves target_backed (search_loop gas fuel clock time0 reads i tp).
Proof.
  intros self self' Hb Hl.
  pose proof (search_loop_setup gas fuel clock time0 reads i tp self) as Hsetup.
  destruct Hl as [[a Ha]|[e He]];
    [rewrite Ha in Hsetup | rewrite He in Hsetup];
    exact (backed_same_setup _ _ Hsetup Hb).
Qed.

Lemma backed_stats (f : AiZynthFinder -> SearchStats) :
  preserves target_backed (assign (fun self => set_search_stats (f self) self)).
Proof. apply preserves_assign. intros self Hb. exact Hb. Qed.

Lemma backed_tree_search fuel clock : preserves target_backed (tree_search fuel clock).
Proof.
  unfold tree_search. apply preserves_bind.
  - intros self self' Hb Hl. unfold leaves in Hl. cbv beta in Hl.
    destruct (tree self) eqn:Htree.
    + destruct Hl as [[a Ha]|[e He]]; simplify_eq. exact Hb.
    + exact (backed_prepare_tree _ _ Hb Hl).
  - intros _. apply preserves_bind; [apply (backed_stats (fun _ => _))|].
    intros _. apply preserves_bind; [apply backed_search_loop|].
    intros tp. apply preserves_bind; [apply (backed_stats (fun s => _))|].
    intros _. apply preserves_unchanged. intros s s'. apply ret_unchanged.
Qed.

Lemma backed_untouched (f : AiZynthFinder -> AiZynthFinder) :
  (forall s, tree (f s) = tree s /\ _target_mol (f s) = _target_mol s) ->
  preserves target_backed (assign f).
Proof.
  intros Hf. apply preserves_assign. intros s. unfold target_backed.
  destruct (Hf s) as [-> ->]. tauto.
Qed.

Lemma backed_read {A} (r : AiZynthFinder -> ExtErr + A)
    (f : A -> AiZynthFinder -> AiZynthFinder) :
  (forall a s, tree (f a s) = tree s /\ _target_mol (f a s) = _target_mol s) ->
  preserves target_backed
    (fun self => bind (external (r self)) (fun a => assign (f a)) self).
Proof.
  intros Hf self self' Hb Hl. revert Hb Hl. apply preserves_bind.
  - apply preserves_unchanged. intros s s'. apply external_unchanged.
  - intros a. apply backed_untouched. apply Hf.
Qed.

Lemma backed_store params key (set : pyval -> Configuration -> Configuration) {B}
    (k : M B) :
  preserves target_backed k ->
  preserves target_backed
    (bind (subscript params key)
       (fun v => bind (assign (fun self => set_config (set v (config self)) self))
                   (fun _ => k))).
Proof.
  intros Hk. apply preserves_bind.
  - apply preserves_unchanged. intros s s'. apply subscript_unchanged.
  - intros v. apply preserves_bind; [|intros _; exact Hk].
    apply backed_untouched. auto.
Qed.

Lemma backed_apply_settings params : preserves target_backed (apply_settings params).
Proof.
  unfold apply_settings.
  apply preserves_bind;
    [apply preserves_unchanged; intros s s'; apply subscript_unchanged|].
  intros v. apply preserves_bind;
    [apply (backed_read (fun self => stock_select v (stock self)) set_stock); auto|].
  intros _. apply preserves_bind;
    [apply (backed_read (fun self => policy_select _ (expansion_policy self))
              set_expansion_policy); auto|].
  intros _. apply preserves_bind.
  { destruct (params !! "filter") as [f|].
    - apply (backed_read (fun self => policy_select f (filter_policy self))
               set_filter_policy); auto.
    - apply backed_untouched. auto. }
  intros _. do 4 apply backed_store.
  apply preserves_bind;
    [apply preserves_unchanged; intros s s'; apply subscript_unchanged|].
  intros smi. apply preserves_bind; [apply backed_set_target_smiles|].
  intros _. do 4 apply backed_store.
  apply preserves_bind;
    [apply preserves_unchanged; intros s s'; apply subscript_unchanged|].
  intros w. apply backed_untouched. auto.
Qed.

Lemma backed_search_and_report fuel clock params :
  preserves target_backed (search_and_report fuel clock params).
Proof.
  assert (Hfinish : forall f : Routes -> RouteDicts,
             preserves target_backed
               (bind _get_settings (fun req =>
                  bind the_routes (fun r => ret (mkResponse req (f r)))))).
  { intros f. apply preserves_unchanged. intros s s' Hl.
    apply bind_leaves_inv in Hl as [[e He]|(req & s1 & Hreq & Hl)].
    - apply _get_settings_unchanged. right. eauto.
    - assert (s1 = s) as -> by (apply _get_settings_unchanged; left; eauto).
      apply bind_leaves_inv in Hl as [[e He]|(r & s2 & Hr & Hl)].
      + apply the_routes_unchanged. right. eauto.
      + assert (s2 = s) as -> by (apply the_routes_unchanged; left; eauto).
        exact (ret_unchanged _ _ _ Hl). }
  unfold search_and_report.
  apply preserves_bind; [apply backed_prepare_tree|].
  intros _. apply preserves_bind; [apply backed_tree_search|].
  intros _. apply preserves_bind; [apply backed_build_routes|].
  intros _.
  destruct (negb (py_truthy (default (PBool false) (params !! "score_trees")))).
  - apply Hfinish.
  - apply preserves_bind;
      [apply preserves_unchanged; intros s s'; apply the_routes_unchanged|].
    intros r. apply preserves_bind;
      [apply preserves_unchanged; intros s s'; apply external_unchanged|].
    intros r'. apply preserves_bind; [apply backed_untouched; auto|].
    intros _. apply Hfinish.
Qed.

Lemma backed_run_from_json fuel clock params :
  preserves target_backed (run_from_json fuel clock params).
Proof.
  intros self self' Hb Hl.
  assert (Hl' : leaves (bind (apply_settings params)
                          (fun _ => search_and_report fuel clock params)) self self').
  { unfold leaves in *. rewrite <- run_from_json_factors. exact Hl. }
  revert Hb Hl'. apply preserves_bind.
  - apply backed_apply_settings.
  - intros _. apply backed_search_and_report.
Qed.

Lemma reachable_target_backed self : reachable self -> target_backed self.
Proof.
  induction 1 as [cfg ep fp st|A m self self' Hreach IH Hcall Hl].
  - left. reflexivity.
  - revert IH Hl. generalize self self'.
    change (preserves target_backed m).
    destruct Hcall.
    + apply backed_set_target_mol.
    + apply backed_set_target_smiles.
    + apply backed_build_routes.
    + apply preserves_unchanged. apply extract_statistics_unchanged.
    + apply backed_prepare_tree.
    + apply backed_tree_search.
    + apply backed_run_from_json.
    + apply backed_untouched. auto.
    + apply backed_untouched. auto.
    + apply backed_untouched. auto.
    + apply backed_untouched. auto.
Qed.

(** C10.  On a controller that the interface can produce and that has no
    target, reading [target_smiles] raises, and [tree_search] raises as
    well, whatever the budget and the clock: it runs no iteration, builds
    no tree and leaves the statistics of the previous search in place. *)
Theorem search_without_target_fails (self : AiZynthFinder) :
  reachable self ->
  _target_mol self = None ->
  target_smiles self = Raise (AttributeError "smiles") self /\
  forall fuel clock, exists e self',
    tree_search fuel clock self = Raise e self' /\
    tree self' = None /\ search_stats self' = search_stats self.
Proof.
  intros Hreach Hnone. split.
  - unfold target_smiles. rewrite Hnone. reflexivity.
  - intros fuel clock.
    assert (Htree : tree self = None).
    { destruct (reachable_target_backed _ Hreach) as [Ht|[mol Hmol]];
        [exact Ht | congruence]. }
    destruct (prepare_tree_without_target _ Hnone) as (e & self' & Hprep).
    exists e, self'. split.
    + unfold tree_search, bind. rewrite Htree, Hprep. reflexivity.
    + apply prepare_tree_Raise in Hprep as (_ & Ht & _ & _ & _ & _ & Hs).
      split; [congruence | exact Hs].
Qed.

(** ** Further properties of the search *)

(** X1.  A search on a controller that already has a tree does not prepare
    again: whether it returns or raises, configuration, stock, policies,
    target, analysis and routes are what they were (so an analysis and
    routes built earlier stay in place) and the controller still has a
    tree. *)
Theorem tree_search_continues_existing_tree fuel clock self :
  is_Some (tree self) ->
  match tree_search fuel clock self with
  | Return _ self' | Raise _ self' =>
      same_setup self self' /\ is_Some (tree self')
  | Diverge => True
  end.
Proof.
  intros [t Htree]. unfold tree_search, bind, assign, ret. rewrite Htree.
  match goal with |- context [search_loop ?g ?f ?c ?t0 ?r ?i ?tp ?s] =>
    pose proof (search_loop_setup g f c t0 r i tp s) as Hsetup;
    destruct (search_loop g f c t0 r i tp s) as [tp' s'|e s'|]
  end; [| |exact I].
  - destruct Hsetup as (? & ? & ? & ? & ? & ? & ? & ? & Hsome).
    split; [|apply Hsome; simpl; rewrite Htree; eauto].
    unfold same_setup. simpl in *. rewrite Htree.
    repeat split; try assumption; try discriminate.
    intros _. apply Hsome. rewrite Htree. eauto.
  - destruct Hsetup as (? & ? & ? & ? & ? & ? & ? & ? & Hsome).
    split; [|apply Hsome; simpl; rewrite Htree; eauto].
    unfold same_setup. simpl in *. rewrite Htree.
    repeat split; try assumption; try discriminate.
    intros _. apply Hsome. rewrite Htree. eauto.
Qed.

Lemma search_loop_exit gas fuel clock time0 T L :
  forall reads i tp self tp' self',
    time_limit (config self) = PNum T ->
    iteration_limit (config self) = PNum L ->
    iterations (search_stats self) = Some (i - 1) ->
    returned_first (search_stats self) = Some false ->
    search_loop gas fuel clock time0 reads i tp self = Return tp' self' ->
    returned_first (search_stats self') = Some true /\
    py_truthy (return_first (config self)) = true
    \/
    returned_first (search_stats self') = Some false /\
    exists n, iterations (search_stats self') = Some n /\ (T <= tp' \/ L <= n).
Proof.
  induction fuel as [|fuel IH]; intros reads i tp self tp' self' HT HL Hit Hrf;
    simpl; unfold py_lt, py_le; rewrite HT, HL; simpl;
    destruct (Z.ltb_spec tp T) as [Htp|Htp];
    try solve [intros Heq; simplify_eq; right; split; [assumption|];
               exists (i - 1); split; [assumption | lia]];
    destruct (Z.leb_spec i L) as [Hi|Hi]; try discriminate;
    try solve [intros Heq; simplify_eq; right; split; [assumption|];
               exists (i - 1); split; [assumption | lia]].
  rewrite Hit.
  destruct (tree self) as [t|]; simpl; [|discriminate].
  destruct (one_iteration gas t) as [[leaf t']|]; [|discriminate].
  destruct (py_truthy (return_first (config self))) eqn:Hfirst; simpl.
  - destruct (state_is_solved leaf t').
    + intros Heq. simplify_eq. left. auto.
    + intros Hloop. apply IH in Hloop; simpl in *; try assumption;
        [|f_equal; lia].
      destruct Hloop as [[? ?]|?]; [left; split; congruence | right; assumption].
  - intros Hloop. apply IH in Hloop; simpl in *; try assumption;
      [|f_equal; lia].
    destruct Hloop as [[? ?]|?]; [left; split; congruence | right; assumption].
Qed.

Lemma tree_search_config fuel clock self tp self' :
  tree_search fuel clock self = Return tp self' ->
  config self' = config self.
Proof.
  intros Hts.
  apply tree_search_Return_inv in Hts as (self0 & self1 & Hprep & Hloop & ->).
  pose proof (search_loop_setup fuel fuel clock (clock 0%nat) 2 1
                (clock 1%nat - clock 0%nat)
                (set_search_stats (mkStats (Some false) (Some 0) None) self0))
    as Hsetup.
  rewrite Hloop in Hsetup. destruct Hsetup as [Hcfg _]. simpl in *.
  rewrite Hcfg. destruct Hprep as [[_ Hp]|[_ ->]]; [|reflexivity].
  apply prepare_tree_Return in Hp. tauto.
Qed.

(** X2.  A search that returns ended in one of three ways: with
    [returned_first] true, which needs [return_first] to be set; or with
    [returned_first] false and the time used up ([time_limit <= time]); or
    with [returned_first] false and the iteration count at the limit. *)
Theorem search_ends_on_budget_or_solution fuel clock self T L tp self' :
  time_limit (config self) = PNum T ->
  iteration_limit (config self) = PNum L ->
  tree_search fuel clock self = Return tp self' ->
  returned_first (search_stats self') = Some true /\
  py_truthy (return_first (config self)) = true
  \/
  returned_first (search_stats self') = Some false /\
  exists n, iterations (search_stats self') = Some n /\ (T <= tp \/ L <= n).
Proof.
  intros HT HL Hts.
  pose proof (tree_search_config _ _ _ _ _ Hts) as Hcfg.
  apply tree_search_Return_inv in Hts as (self0 & self1 & Hprep & Hloop & ->).
  assert (Hcfg0 : config self0 = config self).
  { destruct Hprep as [[_ Hp]|[_ ->]]; [|reflexivity].
    apply prepare_tree_Return in Hp. tauto. }
  apply (search_loop_exit _ _ _ _ T L) in Hloop; simpl;
    try rewrite Hcfg0; try assumption; try reflexivity.
  simpl in Hloop. rewrite Hcfg0 in Hloop. exact Hloop.
Qed.

Lemma search_loop_full_count gas fuel clock time0 T (L : nat) :
  (forall k : nat, (k < L)%nat -> clock (S k) - time0 < T) ->
  forall reads i tp self (n : nat) tp' self',
    time_limit (config self) = PNum T ->
    iteration_limit (config self) = PNum (Z.of_nat L) ->
    py_truthy (return_first (config self)) = false ->
    iterations (search_stats self) = Some (Z.of_nat n) ->
    (n <= L)%nat -> reads = (n + 2)%nat -> i = Z.of_nat n + 1 ->
    tp = clock (S n) - time0 ->
    search_loop gas fuel clock time0 reads i tp self = Return tp' self' ->
    iterations (search_stats self') = Some (Z.of_nat L) /\
    tp' = clock (S L) - time0.
Proof.
  intros Hclock.
  induction fuel as [|fuel IH];
    intros reads i tp self n tp' self' HT HL Hfirst Hit Hn Hreads Hi Htp;
    simpl; unfold py_lt, py_le; rewrite HT, HL; simpl;
    (destruct (Z.ltb_spec tp T) as [Hlt|Hge];
       [|intros Heq; simplify_eq;
         assert (n = L) as ->
           by (destruct (decide (n = L)) as [|Hne]; [assumption|];
               specialize (Hclock n ltac:(lia)); lia);
         split; [assumption | reflexivity]]);
    (destruct (Z.leb_spec i (Z.of_nat L)) as [Hle|Hgt];
       [|intros Heq; simplify_eq;
         assert (n = L) as -> by lia; split; [assumption | reflexivity]]);
    [discriminate|].
  rewrite Hit.
  destruct (tree self) as [t|]; simpl; [|discriminate].
  destruct (one_iteration gas t) as [[leaf t']|]; [|discriminate].
  rewrite Hfirst. simpl.
  intros Hloop.
  apply (IH _ _ _ _ (S n)) in Hloop; simpl; try assumption; try lia.
  - f_equal. lia.
  - subst reads. f_equal. f_equal. lia.
Qed.

(** X3.  Without [return_first], when the clock stays below the time
    limit until the last iteration starts, a search that returns has run
    every iteration: [iterations] equals the iteration limit, and the time
    recorded is the reading taken after the last iteration. *)
Theorem full_budget_runs_every_iteration fuel clock self T (L : nat) tp self' :
  time_limit (config self) = PNum T ->
  iteration_limit (config self) = PNum (Z.of_nat L) ->
  py_truthy (return_first (config self)) = false ->
  (forall k : nat, (k < L)%nat -> clock (S k) - clock 0%nat < T) ->
  tree_search fuel clock self = Return tp self' ->
  iterations (search_stats self') = Some (Z.of_nat L) /\
  returned_first (search_stats self') = Some false /\
  tp = clock (S L) - clock 0%nat.
Proof.
  intros HT HL Hfirst Hclock Hts.
  apply tree_search_Return_inv in Hts as (self0 & self1 & Hprep & Hloop & ->).
  assert (Hcfg0 : config self0 = config self).
  { destruct Hprep as [[_ Hp]|[_ ->]]; [|reflexivity].
    apply prepare_tree_Return in Hp. tauto. }
  pose proof Hloop as Hexit.
  apply (search_loop_full_count _ _ _ _ T L Hclock _ _ _ _ 0%nat) in Hloop;
    simpl; try rewrite Hcfg0; try assumption; try reflexivity; try lia.
  apply (search_loop_exit _ _ _ _ T (Z.of_nat L)) in Hexit;
    simpl; try rewrite Hcfg0; try assumption; try reflexivity.
  simpl in Hexit. rewrite Hcfg0 in Hexit.
  destruct Hloop as [Hn Htp]. split; [exact Hn|]. split; [|exact Htp].
  destruct Hexit as [[_ Habs]|[Hrf _]]; [congruence | exact Hrf].
Qed.

(** X4.  Limits that are not numbers.  A [time_limit] that is no number
    makes the search raise a TypeError at the first test of the loop, after
    the statistics were reset and before any iteration; the statistics then
    have no time.  An [iteration_limit] that is no number raises in the
    same way only if time is left; with the time already used up the limit
    is not looked at and the search returns without iterating. *)
Theorem limits_that_are_not_numbers fuel clock self :
  is_Some (tree self) ->
  (py_num (time_limit (config self)) = None ->
   tree_search fuel clock self
   = Raise (TypeError "<")
       (set_search_stats (mkStats (Some false) (Some 0) None) self)) /\
  (forall T,
     py_num (time_limit (config self)) = Some T ->
     py_num (iteration_limit (config self)) = None ->
     (clock 1%nat - clock 0%nat < T ->
      tree_search fuel clock self
      = Raise (TypeError "<=")
          (set_search_stats (mkStats (Some false) (Some 0) None) self)) /\
     (T <= clock 1%nat - clock 0%nat ->
      tree_search fuel clock self
      = Return (clock 1%nat - clock 0%nat)
          (set_search_stats
             (mkStats (Some false) (Some 0) (Some (clock 1%nat - clock 0%nat)))
             self))).
Proof.
  intros [t Htree].
  split; [intros HT | intros T HT HL; split; intros Hcmp];
    unfold tree_search, bind, assign, ret; rewrite Htree;
    destruct fuel; simpl; unfold py_lt, py_le; simpl;
    rewrite HT; try rewrite HL; try reflexivity.
  all: destruct (Z.ltb_spec (clock 1%nat - clock 0%nat) T); try lia; reflexivity.
Qed.

(** X5.  The leaf from which an iteration backpropagates tests terminal,
    and the score passed on is the score the leaf has in the tree the
    descent left. *)
Theorem backpropagation_starts_at_terminal_leaf gas t leaf t' :
  one_iteration gas t = Some (leaf, t') ->
  exists t2,
    is_terminal leaf t2 = true /\
    t' = backpropagate leaf (state_score leaf t2) t2.
Proof.
  unfold one_iteration. destruct (select_leaf t) as [leaf0 t1].
  destruct (descend gas leaf0 (expand leaf0 t1)) as [[l t2]|] eqn:Hd;
    [|discriminate].
  intros Heq. simplify_eq. exists t2. split; [|reflexivity].
  exact (descend_ends_terminal _ _ _ _ _ Hd).
Qed.

(** ** Further properties of the preparation and of the routes *)

Ltac run_method :=
  unfold bind, assign, external, target_smiles, ret, target_mol;
  cbv beta; fields.


(** X7.  When resetting the exclusion list undoes all exclusions,
    preparing twice is the same as preparing once: a second [prepare_tree]
    returns the controller the first one left. *)
Theorem prepare_tree_twice self self1 :
  exclusion_list_resets ->
  prepare_tree self = Return tt self1 ->
  prepare_tree self1 = Return tt self1.
Proof.
  intros [Hreset Hexclude].
  destruct self as [cfg ep fp st tr tg ss ro an].
  unfold prepare_tree. run_method.
  destruct (py_truthy (exclude_target_from_stock cfg)) eqn:Hex; cbv beta iota; fields.
  - destruct (stock_contains tg (reset_exclusion_list st)) as [e|[]] eqn:Hin;
      cbv beta iota; fields; [discriminate| |].
    + destruct (stock_exclude tg (reset_exclusion_list st)) as [e|st'] eqn:Hout;
        cbv beta iota; fields; [discriminate|].
      destruct tg as [mol|]; cbv beta iota; fields; [|discriminate].
      destruct (SearchTree (mol_smiles mol) cfg st' ep fp) as [e|t] eqn:Ht;
        cbv beta iota; fields; [discriminate|].
      intros Heq. simplify_eq. fields. rewrite Hex. cbv beta iota. fields.
      rewrite (Hexclude _ _ _ Hout), Hreset, Hin. cbv beta iota. fields.
      rewrite Hout. cbv beta iota. fields. rewrite Ht. reflexivity.
    + destruct tg as [mol|]; cbv beta iota; fields; [|discriminate].
      destruct (SearchTree (mol_smiles mol) cfg (reset_exclusion_list st) ep fp)
        as [e|t] eqn:Ht; cbv beta iota; fields; [discriminate|].
      intros Heq. simplify_eq. fields. rewrite Hex. cbv beta iota. fields.
      rewrite Hreset, Hin. cbv beta iota. fields. rewrite Ht. reflexivity.
  - destruct tg as [mol|]; cbv beta iota; fields; [|discriminate].
    destruct (SearchTree (mol_smiles mol) cfg (reset_exclusion_list st) ep fp)
      as [e|t] eqn:Ht; cbv beta iota; fields; [discriminate|].
    intros Heq. simplify_eq. fields. rewrite Hex. cbv beta iota. fields.
    rewrite Hreset, Ht. reflexivity.
Qed.

(** X8.  [build_routes] raises only errors of its collaborators.  If the
    scorer lookup or the analysis fails, the controller is unchanged.  If
    the route collection fails, the controller already holds the new
    analysis, with the routes of the previous build.  On success analysis
    and routes are those built from the current tree. *)
Theorem build_routes_outcome min_nodes scorer self :
  match build_routes min_nodes scorer self with
  | Return _ self' =>
      exists sc a r,
        scorers_lookup scorer = inr sc /\
        TreeAnalysis (tree self) sc = inr a /\
        from_analysis a min_nodes = inr r /\
        self' = set_routes (Some r) (set_analysis (Some a) self)
  | Raise e self' =>
      exists x, e = External x /\
      (self' = self /\
       (scorers_lookup scorer = inl x \/
        exists sc, scorers_lookup scorer = inr sc /\
                   TreeAnalysis (tree self) sc = inl x)
       \/
       exists sc a,
         scorers_lookup scorer = inr sc /\
         TreeAnalysis (tree self) sc = inr a /\
         from_analysis a min_nodes = inl x /\
         self' = set_analysis (Some a) self /\
         routes self' = routes self)
  | Diverge => False
  end.
Proof.
  unfold build_routes. run_method.
  destruct (scorers_lookup scorer) as [x|sc] eqn:Hsc; cbv beta iota; fields.
  { exists x. split; [reflexivity|]. left. auto. }
  destruct (TreeAnalysis (tree self) sc) as [x|a] eqn:Ha; cbv beta iota; fields.
  { exists x. split; [reflexivity|]. left. split; [reflexivity|]. right. eauto. }
  destruct (from_analysis a min_nodes) as [x|r] eqn:Hr; cbv beta iota; fields.
  - exists x. split; [reflexivity|]. right. exists sc, a. auto 10.
  - exists sc, a, r. auto.
Qed.

(** ** Further properties of the settings and of the response *)

Lemma _get_settings_config self d self' :
  _get_settings self = Return d self' ->
  (exists mol, _target_mol self = Some mol /\
               d !! "smiles" = Some (PStr (mol_smiles mol))) /\
  d !! "C" = Some (C (config self)) /\
  d !! "max_transforms" = Some (max_transforms (config self)) /\
  d !! "cutoff_cumulative" = Some (cutoff_cumulative (config self)) /\
  d !! "cutoff_number" = Some (cutoff_number (config self)) /\
  d !! "return_first" = Some (return_first (config self)) /\
  d !! "time_limit" = Some (time_limit (config self)) /\
  d !! "iteration_limit" = Some (iteration_limit (config self)) /\
  d !! "exclude_target_from_stock"
    = Some (exclude_target_from_stock (config self)) /\
  d !! "filter_cutoff" = Some (filter_cutoff (config self)).
Proof.
  unfold _get_settings, bind, target_smiles.
  destruct (_target_mol self) as [mol|] eqn:Hmol.
  2:{ destruct (policy_selection (expansion_policy self)) as [|? [|? ?]];
        discriminate. }
  destruct (policy_selection (expansion_policy self)) as [|p [|q sel]] eqn:Hsel;
    destruct (policy_selection (filter_policy self)) as [|f fsel];
    intros Heq; simplify_eq;
    (split; [exists mol; split; [reflexivity | simplify_map_eq; reflexivity]|]);
    repeat split; simplify_map_eq; reflexivity.
Qed.

(** X10.  [_get_settings] raises (AttributeError, controller unchanged)
    exactly when there is no target.  Otherwise it does not change the
    controller; [stocks] is the stock selection; with no expansion policy
    selected the record has [policies] = [] and no [policy]; the key
    [filter] is present exactly when the filter selection is not empty. *)
Theorem settings_selections_and_target self :
  match _get_settings self with
  | Return d self' =>
      self' = self /\ is_Some (_target_mol self) /\
      d !! "stocks" = Some (names (stock_selection (stock self))) /\
      (policy_selection (expansion_policy self) = [] ->
       d !! "policies" = Some (PList []) /\ d !! "policy" = None) /\
      d !! "filter"
        = match policy_selection (filter_policy self) with
          | [] => None
          | fsel => Some (names fsel)
          end
  | Raise e self' =>
      e = AttributeError "smiles" /\ self' = self /\ _target_mol self = None
  | Diverge => False
  end.
Proof.
  unfold _get_settings, bind, target_smiles.
  destruct (_target_mol self) as [mol|] eqn:Hmol.
  2:{ destruct (policy_selection (expansion_policy self)) as [|? [|? ?]]; auto. }
  destruct (policy_selection (expansion_policy self)) as [|p [|q sel]] eqn:Hsel;
    destruct (policy_selection (filter_policy self)) as [|f fsel];
    (split; [reflexivity|]); (split; [eexists; reflexivity|]);
    (split; [simplify_map_eq; reflexivity|]);
    (split; [first [intros _; split; simplify_map_eq; reflexivity
                   | intros Habs; discriminate Habs]|]);
    simplify_map_eq; reflexivity.
Qed.

Lemma apply_settings_config params self self' :
  apply_settings params self = Return tt self' ->
  (exists v mol, params !! "smiles" = Some v /\ Molecule v = inr mol /\
                 _target_mol self' = Some mol) /\
  params !! "C" = Some (C (config self')) /\
  params !! "max_transforms" = Some (max_transforms (config self')) /\
  params !! "cutoff_cumulative" = Some (cutoff_cumulative (config self')) /\
  params !! "cutoff_number" = Some (cutoff_number (config self')) /\
  params !! "return_first" = Some (return_first (config self')) /\
  params !! "time_limit" = Some (time_limit (config self')) /\
  params !! "iteration_limit" = Some (iteration_limit (config self')) /\
  params !! "exclude_target_from_stock"
    = Some (exclude_target_from_stock (config self')) /\
  params !! "filter_cutoff" = Some (filter_cutoff (config self')).
Proof.
  destruct self as [[] ep fp st tr tg ss ro an].
  expose_settings. fields.
  repeat lazymatch goal with
         | |- Raise _ _ = Return _ _ -> _ => discriminate
         | |- Return _ _ = Return _ _ -> _ =>
             intros Heq; injection Heq as <-; fields;
             (split; [do 2 eexists; split; [reflexivity|];
                      split; [eassumption | reflexivity]|]);
             repeat split; assumption
         | |- ?l = _ -> _ =>
             let x := head_scrutinee l in
             destruct x eqn:?; cbv beta iota; fields
         end.
Qed.

Lemma build_routes_Return n scorer self self' :
  build_routes n scorer self = Return tt self' ->
  exists sc a r,
    scorers_lookup scorer = inr sc /\
    TreeAnalysis (tree self) sc = inr a /\
    from_analysis a n = inr r /\
    self' = set_routes (Some r) (set_analysis (Some a) self).
Proof.
  unfold build_routes. run_method.
  destruct (scorers_lookup scorer) as [x|sc] eqn:Hsc; cbv beta iota; fields;
    [discriminate|].
  destruct (TreeAnalysis (tree self) sc) as [x|a] eqn:Ha; cbv beta iota; fields;
    [discriminate|].
  destruct (from_analysis a n) as [x|r] eqn:Hr; cbv beta iota; fields;
    [discriminate|].
  intros Heq. simplify_eq. exists sc, a, r. auto.
Qed.

Lemma tree_search_Return_frame fuel clock self tp self' :
  tree_search fuel clock self = Return tp self' ->
  config self' = config self /\ _target_mol self' = _target_mol self /\
  is_Some (tree self') /\ time (search_stats self') = Some tp /\
  expansion_policy self' = expansion_policy self /\
  filter_policy self' = filter_policy self.
Proof.
  intros Hts.
  apply tree_search_Return_inv in Hts as (self0 & self1 & Hprep & Hloop & ->).
  pose proof (search_loop_setup fuel fuel clock (clock 0%nat) 2 1
                (clock 1%nat - clock 0%nat)
                (set_search_stats (mkStats (Some false) (Some 0) None) self0))
    as Hsetup.
  rewrite Hloop in Hsetup.
  destruct Hsetup as (Hcfg & _ & Hep & Hfp & Htarget & _ & _ & _ & Hsome).
  simpl in *. rewrite Hcfg, Htarget, Hep, Hfp.
  destruct Hprep as [[_ Hp]|[Htree ->]].
  - apply prepare_tree_Return in Hp as (_ & Ht & _ & _ & Htg & Hc & He & Hf & _).
    auto 10.
  - auto 10.
Qed.

Lemma search_and_report_inv fuel clock params self resp self' :
  search_and_report fuel clock params self = Return resp self' ->
  exists s1 tp s2 s3 r0,
    prepare_tree self = Return tt s1 /\
    tree_search fuel clock s1 = Return tp s2 /\
    build_routes 5 "state score" s2 = Return tt s3 /\
    routes s3 = Some r0 /\
    _get_settings self' = Return (request resp) self' /\
    if py_truthy (default (PBool false) (params !! "score_trees")) then
      exists r, compute_scores scorers_objects r0 = inr r /\
                self' = set_routes (Some r) s3 /\
                trees resp = dict_with_scores r
    else self' = s3 /\ trees resp = routes_dicts r0.
Proof.
  unfold search_and_report. intros Hrun.
  apply bind_Return_inv in Hrun as ([] & s1 & Hprep & Hrun).
  apply bind_Return_inv in Hrun as (tp & s2 & Hsearch & Hrun).
  apply bind_Return_inv in Hrun as ([] & s3 & Hbuild & Hrun).
  exists s1, tp, s2, s3.
  destruct (py_truthy (default (PBool false) (params !! "score_trees"))); simpl in Hrun.
  - apply bind_Return_inv in Hrun as (r0 & s4 & Hr0 & Hrun).
    apply bind_Return_inv in Hrun as (r & s5 & Hr & Hrun).
    apply bind_Return_inv in Hrun as ([] & s6 & Hset & Hrun).
    apply bind_Return_inv in Hrun as (req & s7 & Hget & Hrun).
    apply bind_Return_inv in Hrun as (r2 & s8 & Hr2 & Hrun).
    destruct (_get_settings_Return _ _ _ Hget) as [-> _].
    unfold ret, the_routes, external, assign in *.
    destruct (routes s3) as [r0'|] eqn:Hroutes; [|discriminate].
    injection Hr0 as <- <-.
    destruct (compute_scores scorers_objects r0') as [x|r'] eqn:Hscore;
      [discriminate|].
    injection Hr as <- <-. injection Hset as <-.
    simpl in Hr2. injection Hr2 as <- <-. injection Hrun as <- <-.
    exists r0'. repeat split; try assumption. exists r'. auto.
  - apply bind_Return_inv in Hrun as (req & s4 & Hget & Hrun).
    apply bind_Return_inv in Hrun as (r0 & s5 & Hr0 & Hrun).
    destruct (_get_settings_Return _ _ _ Hget) as [-> _].
    unfold ret, the_routes in *.
    destruct (routes s3) as [r0'|] eqn:Hroutes; [|discriminate].
    injection Hr0 as <- <-. injection Hrun as <- <-.
    exists r0'. repeat split; assumption.
Qed.

(** X11.  The [request] record of a response echoes the request: each of
    the nine configuration keys is in the request and has the same value in
    the record, and [smiles] is the SMILES of the molecule made from the
    request's [smiles]. *)
Theorem response_echoes_configuration fuel clock params self resp self' :
  run_from_json fuel clock params self = Return resp self' ->
  (forall key,
     key ∈ ["C"; "max_transforms"; "cutoff_cumulative"; "cutoff_number";
            "return_first"; "time_limit"; "iteration_limit";
            "exclude_target_from_stock"; "filter_cutoff"]%string ->
     is_Some (params !! key) /\ request resp !! key = params !! key) /\
  exists v mol,
    params !! "smiles" = Some v /\ Molecule v = inr mol /\
    _target_mol self' = Some mol /\
    request resp !! "smiles" = Some (PStr (mol_smiles mol)).
Proof.
  intros Hrun. rewrite run_from_json_factors in Hrun.
  apply bind_Return_inv in Hrun as ([] & s0 & Hset & Hrun).
  apply apply_settings_config in Hset
    as ((v & mol & Hv & Hmol & Htarget) & HC & Hmt & Hcc & Hcn & Hrf & Htl & Hil
        & Hex & Hfc).
  apply search_and_report_inv in Hrun
    as (s1 & tp & s2 & s3 & r0 & Hprep & Hsearch & Hbuild & _ & Hget & Hfinal).
  apply prepare_tree_Return in Hprep as (_ & _ & _ & _ & Htg1 & Hcfg1 & _).
  apply tree_search_Return_frame in Hsearch as (Hcfg2 & Htg2 & _).
  apply build_routes_Return in Hbuild as (sc & a & r & _ & _ & _ & ->).
  assert (Hself' : config self' = config s0 /\ _target_mol self' = Some mol).
  { destruct (py_truthy (default (PBool false) (params !! "score_trees"))).
    - destruct Hfinal as (r' & _ & -> & _). simpl. split; congruence.
    - destruct Hfinal as [-> _]. simpl. split; congruence. }
  destruct Hself' as [Hcfg Htg].
  apply _get_settings_config in Hget
    as ((mol' & Hmol' & Hsmi) & HC' & Hmt' & Hcc' & Hcn' & Hrf' & Htl' & Hil'
        & Hex' & Hfc').
  rewrite Hcfg in *.
  split.
  - intros key Hkey. apply list_elem_of_In in Hkey. simpl in Hkey.
    repeat (destruct Hkey as [<-|Hkey]; [split; [eauto | congruence]|]).
    destruct Hkey.
  - exists v, mol. repeat split; try assumption. congruence.
Qed.

(** X12.  When [run_from_json] returns, the controller has a tree, its
    analysis is the one that the [state score] scorer gives for that tree,
    and the routes come from that analysis with at least 5 nodes: as they
    are, returned as plain dictionaries, when [score_trees] is absent or
    false; after the scores of all scorers were computed, returned with
    scores, when it is true. *)
Theorem response_is_built_from_final_tree fuel clock params self resp self' :
  run_from_json fuel clock params self = Return resp self' ->
  exists sc a r0,
    is_Some (tree self') /\
    scorers_lookup "state score" = inr sc /\
    TreeAnalysis (tree self') sc = inr a /\
    analysis self' = Some a /\
    from_analysis a 5 = inr r0 /\
    if py_truthy (default (PBool false) (params !! "score_trees")) then
      exists r, compute_scores scorers_objects r0 = inr r /\
                routes self' = Some r /\ trees resp = dict_with_scores r
    else routes self' = Some r0 /\ trees resp = routes_dicts r0.
Proof.
  intros Hrun. rewrite run_from_json_factors in Hrun.
  apply bind_Return_inv in Hrun as ([] & s0 & _ & Hrun).
  apply search_and_report_inv in Hrun
    as (s1 & tp & s2 & s3 & r0 & _ & Hsearch & Hbuild & Hroutes & _ & Hfinal).
  apply tree_search_Return_frame in Hsearch as (_ & _ & Htree & _).
  apply build_routes_Return in Hbuild as (sc & a & r & Hsc & Ha & Hr & ->).
  simpl in Hroutes. simplify_eq.
  exists sc, a, r0.
  destruct (py_truthy (default (PBool false) (params !! "score_trees"))).
  - destruct Hfinal as (r' & Hscore & -> & Htrees). simpl.
    repeat split; try assumption. exists r'. auto.
  - destruct Hfinal as [-> Htrees]. simpl. repeat split; assumption.
Qed.

(** X9.  After a search and [build_routes] on a controller whose tree, if
    any, came with a target, [extract_statistics] returns: every statistic
    of the analysis with its value, and [search_time] (the time the search
    returned) and [target] unless the analysis has statistics of the same
    name. *)
Theorem statistics_after_search fuel clock n scorer self tp s1 s2 :
  target_backed self ->
  tree_search fuel clock self = Return tp s1 ->
  build_routes n scorer s1 = Return tt s2 ->
  exists a mol stats,
    analysis s2 = Some a /\ _target_mol self = Some mol /\
    extract_statistics s2 = Return stats s2 /\
    (forall key v, tree_statistics a !! key = Some v -> stats !! key = Some v) /\
    (tree_statistics a !! "search_time" = None ->
     stats !! "search_time" = Some (PNum tp)) /\
    (tree_statistics a !! "target" = None ->
     stats !! "target" = Some (PStr (mol_smiles mol))).
Proof.
  intros Hbacked Hsearch Hbuild.
  pose proof (tree_search_Return_frame _ _ _ _ _ Hsearch)
    as (_ & Htarget & _ & Htime & _).
  assert (Hmol : is_Some (_target_mol self)).
  { apply tree_search_Return_inv in Hsearch as (s0 & _ & Hprep & _).
    destruct Hprep as [[_ Hp]|[Htree _]].
    - apply prepare_tree_Return in Hp. tauto.
    - destruct Hbacked as [Hnone|Hsome]; [|exact Hsome].
      destruct Htree as [t Ht]. congruence. }
  destruct Hmol as [mol Hmol].
  apply build_routes_Return in Hbuild as (sc & a & r & _ & _ & _ & ->).
  exists a, mol. eexists. split; [reflexivity|]. split; [exact Hmol|].
  split.
  { unfold extract_statistics, bind, target_smiles. simpl.
    rewrite Htarget, Hmol. simpl. rewrite Htime. reflexivity. }
  split; [|split].
  - intros key v Hkey. apply lookup_union_Some_l. exact Hkey.
  - intros Hnone. rewrite lookup_union_r by exact Hnone.
    simplify_map_eq. reflexivity.
  - intros Hnone. rewrite lookup_union_r by exact Hnone.
    simplify_map_eq. reflexivity.
Qed.

(** X13.  Statistics before a search.  After [prepare_tree],
    [extract_statistics] returns the empty mapping.  If routes are then
    built without a search on a controller that has no search time yet,
    [extract_statistics] raises the lookup failure of [time]. *)
Theorem statistics_before_search self s1 :
  prepare_tree self = Return tt s1 ->
  extract_statistics s1 = Return ∅ s1 /\
  forall n scorer s2,
    time (search_stats self) = None ->
    build_routes n scorer s1 = Return tt s2 ->
    extract_statistics s2 = Raise (KeyError "time") s2.
Proof.
  intros Hprep.
  apply prepare_tree_Return in Hprep
    as ([mol Hmol] & _ & Hana & _ & Htarget & _ & _ & _ & Hstats).
  split.
  - unfold extract_statistics. rewrite Hana. reflexivity.
  - intros n scorer s2 Htime Hbuild.
    apply build_routes_Return in Hbuild as (sc & a & r & _ & _ & _ & ->).
    unfold extract_statistics, bind, target_smiles. simpl.
    rewrite Htarget, Hmol. simpl. rewrite Hstats, Htime. reflexivity.
Qed.

Lemma _get_settings_filter self d self' :
  _get_settings self = Return d self' ->
  d !! "filter"
  = match policy_selection (filter_policy self') with
    | [] => None
    | fsel => Some (names fsel)
    end.
Proof.
  intros Hget. destruct (_get_settings_Return _ _ _ Hget) as [-> _].
  revert Hget. unfold _get_settings, bind, target_smiles.
  destruct (_target_mol self) as [mol|];
    destruct (policy_selection (expansion_policy self)) as [|p [|q sel]];
    destruct (policy_selection (filter_policy self)) as [|f fsel];
    intros Heq; simplify_eq; simplify_map_eq; reflexivity.
Qed.

Lemma apply_settings_selections params self self' :
  apply_settings params self = Return tt self' ->
  (exists vs, params !! "stocks" = Some vs /\
              stock_select vs (stock self) = inr (stock self')) /\
  policy_select (policy_argument params) (expansion_policy self)
    = inr (expansion_policy self') /\
  match params !! "filter" with
  | Some f => policy_select f (filter_policy self) = inr (filter_policy self')
  | None => filter_policy self' = policy_deselect (filter_policy self)
  end.
Proof.
  destruct self as [[] ep fp st tr tg ss ro an].
  expose_settings. fields.
  repeat lazymatch goal with
         | |- Raise _ _ = Return _ _ -> _ => discriminate
         | |- Return _ _ = Return _ _ -> _ =>
             intros Heq; injection Heq as <-; fields;
             (split; [eexists; split; [reflexivity | eassumption]|]);
             split; first [eassumption | reflexivity]
         | |- ?l = _ -> _ =>
             let x := head_scrutinee l in
             destruct x eqn:?; cbv beta iota; fields
         end.
Qed.

(** X14.  When [run_from_json] returns, the expansion policy of the
    controller is the one that selecting the request's policy gave; the
    filter policy is the one that selecting the request's [filter] gave,
    or, without that key, the deselected one; and the key [filter] of the
    [request] record follows the final filter selection. *)
Theorem response_reports_applied_selections fuel clock params self resp self' :
  run_from_json fuel clock params self = Return resp self' ->
  policy_select (policy_argument params) (expansion_policy self)
    = inr (expansion_policy self') /\
  match params !! "filter" with
  | Some f => policy_select f (filter_policy self) = inr (filter_policy self')
  | None => filter_policy self' = policy_deselect (filter_policy self)
  end /\
  request resp !! "filter"
    = match policy_selection (filter_policy self') with
      | [] => None
      | fsel => Some (names fsel)
      end.
Proof.
  intros Hrun. rewrite run_from_json_factors in Hrun.
  apply bind_Return_inv in Hrun as ([] & s0 & Hset & Hrun).
  apply apply_settings_selections in Hset as (_ & Hep & Hfp).
  apply search_and_report_inv in Hrun
    as (s1 & tp & s2 & s3 & r0 & Hprep & Hsearch & Hbuild & _ & Hget & Hfinal).
  apply prepare_tree_Return in Hprep as (_ & _ & _ & _ & _ & _ & Hep1 & Hfp1 & _).
  apply tree_search_Return_frame in Hsearch as (_ & _ & _ & _ & Hep2 & Hfp2).
  apply build_routes_Return in Hbuild as (sc & a & r & _ & _ & _ & ->).
  assert (Hself' : expansion_policy self' = expansion_policy s0 /\
                   filter_policy self' = filter_policy s0).
  { destruct (py_truthy (default (PBool false) (params !! "score_trees"))).
    - destruct Hfinal as (r' & _ & -> & _). simpl. split; congruence.
    - destruct Hfinal as [-> _]. simpl. split; congruence. }
  destruct Hself' as [-> Hfilter]. split; [exact Hep|].
  split.
  - rewrite Hfilter. exact Hfp.
  - exact (_get_settings_filter _ _ _ Hget).
Qed.

(** ** Routes and their analysis *)

Lemma routes_backed_untouched (f : AiZynthFinder -> AiZynthFinder) :
  (forall s, routes (f s) = routes s /\ analysis (f s) = analysis s) ->
  preserves routes_backed (assign f).
Proof.
  intros Hf. apply preserves_assign. intros s. unfold routes_backed.
  destruct (Hf s) as [-> ->]. tauto.
Qed.

Lemma routes_backed_same s s' :
  routes s' = routes s -> analysis s' = analysis s ->
  routes_backed s -> routes_backed s'.
Proof. unfold routes_backed. intros -> ->. tauto. Qed.

Lemma routes_backed_build_routes n scorer :
  preserves routes_backed (build_routes n scorer).
Proof.
  intros self self' Hb. unfold leaves, build_routes. run_method.
  destruct (scorers_lookup scorer) as [x|sc]; cbv beta iota; fields;
    [intros [[? ?]|[? ?]]; simplify_eq; exact Hb|].
  destruct (TreeAnalysis (tree self) sc) as [x|a]; cbv beta iota; fields;
    [intros [[? ?]|[? ?]]; simplify_eq; exact Hb|].
  destruct (from_analysis a n) as [x|r]; cbv beta iota; fields;
    intros [[? ?]|[? ?]]; simplify_eq; intros _; simpl; eauto.
Qed.

Lemma routes_backed_prepare_tree : preserves routes_backed prepare_tree.
Proof.
  intros self self' Hb [[[] Hr]|[e Hr]].
  - apply prepare_tree_Return in Hr as (_ & _ & _ & Hroutes & _).
    intros [r Hsome]. congruence.
  - apply prepare_tree_Raise in Hr as (_ & _ & Hana & Hroutes & _).
    exact (routes_backed_same _ _ Hroutes Hana Hb).
Qed.

Lemma routes_backed_tree_search fuel clock :
  preserves routes_backed (tree_search fuel clock).
Proof.
  unfold tree_search. apply preserves_bind.
  - intros self self' Hb Hl. unfold leaves in Hl. cbv beta in Hl.
    destruct (tree self) eqn:Htree.
    + destruct Hl as [[a Ha]|[e He]]; simplify_eq. exact Hb.
    + exact (routes_backed_prepare_tree _ _ Hb Hl).
  - intros _. apply preserves_bind; [apply routes_backed_untouched; auto|].
    intros _. apply preserves_bind.
    { intros self self' Hb Hl.
      match type of Hl with leaves (search_loop ?g ?f ?c ?t0 ?r ?i ?tp) _ _ =>
        pose proof (search_loop_setup g f c t0 r i tp self) as Hsetup end.
      destruct Hl as [[a Ha]|[e He]];
        [rewrite Ha in Hsetup | rewrite He in Hsetup];
        destruct Hsetup as (_ & _ & _ & _ & _ & Hana & Hroutes & _);
        exact (routes_backed_same _ _ Hroutes Hana Hb). }
    intros tp. apply preserves_bind; [apply routes_backed_untouched; auto|].
    intros _. apply preserves_unchanged. intros s s'. apply ret_unchanged.
Qed.

Lemma routes_backed_apply_settings params :
  preserves routes_backed (apply_settings params).
Proof.
  intros self self' Hb [[[] Hr]|[e Hr]].
  - apply apply_settings_Return in Hr as (_ & _ & Hana & Hroutes & _).
    exact (routes_backed_same _ _ Hroutes Hana Hb).
  - apply apply_settings_Raise in Hr as (_ & _ & Hana & Hroutes & _).
    exact (routes_backed_same _ _ Hroutes Hana Hb).
Qed.

Lemma routes_backed_search_and_report fuel clock params :
  preserves routes_backed (search_and_report fuel clock params).
Proof.
  assert (Hfinish : forall f : Routes -> RouteDicts,
             preserves routes_backed
               (bind _get_settings (fun req =>
                  bind the_routes (fun r => ret (mkResponse req (f r)))))).
  { intros f. apply preserves_unchanged. intros s s' Hl.
    apply bind_leaves_inv in Hl as [[e He]|(req & s1 & Hreq & Hl)].
    - apply _get_settings_unchanged. right. eauto.
    - assert (s1 = s) as -> by (apply _get_settings_unchanged; left; eauto).
      apply bind_leaves_inv in Hl as [[e He]|(r & s2 & Hr & Hl)].
      + apply the_routes_unchanged. right. eauto.
      + assert (s2 = s) as -> by (apply the_routes_unchanged; left; eauto).
        exact (ret_unchanged _ _ _ Hl). }
  unfold search_and_report.
  apply preserves_bind; [apply routes_backed_prepare_tree|].
  intros _. apply preserves_bind; [apply routes_backed_tree_search|].
  intros _. apply preserves_bind; [apply routes_backed_build_routes|].
  intros _.
  destruct (negb (py_truthy (default (PBool false) (params !! "score_trees")))).
  - apply Hfinish.
  - intros self self' Hb Hl.
    apply bind_leaves_inv in Hl as [[e He]|(r & s1 & Hr & Hl)].
    { assert (self' = self) as -> by (apply the_routes_unchanged; right; eauto).
      exact Hb. }
    assert (s1 = self) as -> by (apply the_routes_unchanged; left; eauto).
    apply bind_leaves_inv in Hl as [[e He]|(r' & s2 & Hr' & Hl)].
    { assert (self' = self) as ->
        by (apply (external_unchanged (compute_scores scorers_objects r));
            right; eauto).
      exact Hb. }
    assert (s2 = self) as ->
      by (apply (external_unchanged (compute_scores scorers_objects r));
          left; eauto).
    assert (Hana : is_Some (analysis self)).
    { apply Hb. unfold the_routes in Hr. destruct (routes self); [eauto|discriminate]. }
    apply bind_leaves_inv in Hl as [[e He]|([] & s3 & Hs3 & Hl)];
      [discriminate|].
    unfold assign in Hs3. injection Hs3 as <-.
    apply (Hfinish dict_with_scores _ _) in Hl; [exact Hl|].
    intros _. exact Hana.
Qed.

Lemma reachable_routes_backed self : reachable self -> routes_backed self.
Proof.
  induction 1 as [cfg ep fp st|A m self self' Hreach IH Hcall Hl].
  - intros [r Hr]. discriminate.
  - revert IH Hl. generalize self self'.
    change (preserves routes_backed m).
    destruct Hcall.
    + apply preserves_bind; apply routes_backed_untouched || intros _;
        try apply routes_backed_untouched; auto.
    + apply preserves_bind.
      * apply preserves_unchanged. intros s s'. apply external_unchanged.
      * intros mol.
        apply preserves_bind; apply routes_backed_untouched || intros _;
          try apply routes_backed_untouched; auto.
    + apply routes_backed_build_routes.
    + apply preserves_unchanged. apply extract_statistics_unchanged.
    + apply routes_backed_prepare_tree.
    + apply routes_backed_tree_search.
    + intros s s' Hb Hl.
      assert (Hl' : leaves (bind (apply_settings params)
                              (fun _ => search_and_report fuel clock params)) s s').
      { unfold leaves in *. rewrite <- run_from_json_factors. exact Hl. }
      revert Hb Hl'. apply preserves_bind.
      * apply routes_backed_apply_settings.
      * intros _. apply routes_backed_search_and_report.
    + apply routes_backed_untouched. auto.
    + apply routes_backed_untouched. auto.
    + apply routes_backed_untouched. auto.
    + apply routes_backed_untouched. auto.
Qed.

(** X15.  On every controller that the interface can produce, a tree
    exists only together with a target, and routes exist only together
    with an analysis. *)
Theorem routes_come_with_their_analysis self :
  reachable self ->
  (is_Some (tree self) -> is_Some (_target_mol self)) /\
  (is_Some (routes self) -> is_Some (analysis self)).
Proof.
  intros Hreach. split.
  - intros [t Ht]. destruct (reachable_target_backed _ Hreach) as [Hnone|Hsome];
      [congruence | exact Hsome].
  - exact (reachable_routes_backed _ Hreach).
Qed.
End Properties.

(** * The controller on the test doubles *)

Import Doubles.

(** ** The chain tree keeps the contract of the descent *)





(** Counterexample of C2: the request lacks only [time_limit]; the call
    raises the lookup failure of that key, and by then the stock selection
    and the expansion policy selection of the controller have changed. *)
Lemma missing_time_limit_changes_selections :
  stock_selection (stock (fresh (ana := good))) = [] /\
  policy_selection (expansion_policy (fresh (ana := good))) = [] /\
  match run_from_json (ana := good) 20 clock7 (delete "time_limit" request0)
          (fresh (ana := good)) with
  | Raise e self' =>
      e = KeyError "time_limit" /\
      stock_selection (stock self') = ["zinc"%string] /\
      policy_selection (expansion_policy self') = ["uspto"%string]
  | _ => False
  end.
Proof. vm_compute. auto. Qed.

(** Witness of C2 (amended). *)
Lemma run_from_json_without_time_limit_witness :
  exists e self',
    run_from_json (ana := good) 20 clock7 (delete "time_limit" request0)
      (fresh (ana := good)) = Raise e self' /\
    (tree self' = tree (fresh (ana := good)) \/ tree self' = None) /\
    search_stats self' = no_stats.
Proof.
  destruct (run_from_json_without_time_limit (ana := good) 20 clock7
              (delete "time_limit" request0) (fresh (ana := good)))
    as (e & self' & Hrun & _ & Htree & _ & _ & Hstats & _).
  - vm_compute. reflexivity.
  - exists e, self'. auto.
Defined.

(** Counterexample of C3: the request has neither [policy] nor [policies];
    the call raises nothing and answers, with the empty string as the
    policy. *)
Lemma missing_policy_key_runs :
  delete "policy" request0 !! "policy" = None /\
  delete "policy" request0 !! "policies" = None /\
  match run_from_json (ana := good) 20 clock7 (delete "policy" request0)
          (fresh (ana := good)) with
  | Return resp self' =>
      request resp !! "policy" = Some (PStr "") /\
      policy_selection (expansion_policy self') = [""%string]
  | _ => False
  end.
Proof. vm_compute. auto. Qed.

(** Witness of C3 (amended). *)
Lemma run_from_json_missing_key_witness :
  (exists e self',
     run_from_json (ana := good) 20 clock7 (delete "smiles" request0)
       (fresh (ana := good)) = Raise e self' /\
     (missing_field (delete "smiles" request0) e \/ is_external e)) /\
  run_from_json (ana := good) 20 clock7 (delete "policy" request0)
    (fresh (ana := good))
  = run_from_json (ana := good) 20 clock7
      (<["policy" := PStr ""]> (delete "policy" request0)) (fresh (ana := good)).
Proof.
  pose proof (run_from_json_missing_key (ana := good) 20 clock7
                (delete "smiles" request0) (fresh (ana := good))) as [Hkey _].
  pose proof (run_from_json_missing_key (ana := good) 20 clock7
                (delete "policy" request0) (fresh (ana := good))) as [_ Hpol].
  split.
  - apply (Hkey "smiles"); [|vm_compute; reflexivity].
    apply list_elem_of_In. simpl. tauto.
  - apply Hpol; vm_compute; reflexivity.
Defined.

(** Counterexample of C4: after a complete run, a new target is assigned;
    the tree is gone, the analysis and the routes of the old target are
    still there, and [extract_statistics] reports them under the new
    target. *)
Lemma stale_analysis_after_new_target :
  match run_from_json (ana := good) 20 clock7 request0 (fresh (ana := good)) with
  | Return _ self1 =>
      match set_target_smiles (PStr "c1ccccc1") self1 with
      | Return _ self2 =>
          tree self2 = None /\
          analysis self1 = Some 3%nat /\ analysis self2 = Some 3%nat /\
          routes self1 = Some ([3%nat], false) /\
          routes self2 = Some ([3%nat], false) /\
          match extract_statistics self2 with
          | Return stats _ =>
              stats !! "target" = Some (PStr "c1ccccc1") /\
              stats !! "number_of_nodes" = Some (PNum 3)
          | _ => False
          end
      | _ => False
      end
  | _ => False
  end.
Proof. vm_compute. auto 10. Qed.

(** Witness of C4 (amended). *)
Lemma target_setter_clears_tree_only_witness :
  exists self',
    prepare_tree (aimed (ana := good) cfg0) = Return tt self' /\
    is_Some (tree self') /\ analysis self' = None /\ routes self' = None.
Proof.
  eexists. split; [vm_compute; reflexivity|].
  apply (proj2 (target_setter_clears_tree_only (ana := good) None
                  (aimed (ana := good) cfg0))).
  vm_compute. reflexivity.
Defined.

(** Witness of C5: on the tree that is solved in its first iteration, with
    a clock that advances by 7 ticks per iteration, the search returns
    first and records the time 0. *)
Lemma recorded_time_by_exit_witness :
  clock7 2 - clock7 0 = 7 /\
  exists self',
    tree_search (ana := quick) 20 clock7 (aimed (ana := quick) cfg_first)
      = Return 0 self' /\
    time (search_stats self') = Some 0 /\
    exists n : nat,
      iterations (search_stats self') = Some (Z.of_nat n) /\
      (returned_first (search_stats self') = Some true /\
       (1 <= n)%nat /\ 0 = clock7 n - clock7 0
       \/
       returned_first (search_stats self') = Some false /\
       0 = clock7 (S n) - clock7 0).
Proof.
  split; [reflexivity|].
  eexists. split; [vm_compute; reflexivity|].
  apply (recorded_time_by_exit (ana := quick) 20 clock7
           (aimed (ana := quick) cfg_first)).
  vm_compute. reflexivity.
Defined.


(** Witness of C7: the limit of 100 iterations on the well-behaved tree. *)
Lemma iterations_within_limit_witness :
  exists tp self' n,
    tree_search (ana := good) 20 clock7 (aimed (ana := good) cfg0)
      = Return tp self' /\
    iterations (search_stats self') = Some n /\ 0 <= n <= 100.
Proof.
  assert (Hrun : exists tp self',
             tree_search (ana := good) 20 clock7 (aimed (ana := good) cfg0)
             = Return tp self') by (do 2 eexists; vm_compute; reflexivity).
  destruct Hrun as (tp & self' & Hrun). exists tp, self'.
  destruct (iterations_within_limit (ana := good) 20 clock7
              (aimed (ana := good) cfg0) 100 tp self' eq_refl ltac:(lia) Hrun)
    as (n & Hn & Hle).
  exists n. auto.
Defined.

(** Witness of C8: a time limit of 0 on a controller without a tree. *)
Lemma zero_time_limit_no_iteration_witness :
  match tree_search (ana := good) 20 clock7
          (aimed (ana := good) (set_time_limit (PNum 0) cfg0)) with
  | Return tp self' =>
      iterations (search_stats self') = Some 0 /\
      returned_first (search_stats self') = Some false /\
      tp = clock7 1 - clock7 0 /\
      exists self0,
        (tree (aimed (ana := good) (set_time_limit (PNum 0) cfg0)) = None /\
         prepare_tree (aimed (ana := good) (set_time_limit (PNum 0) cfg0))
           = Return tt self0 \/
         is_Some (tree (aimed (ana := good) (set_time_limit (PNum 0) cfg0))) /\
         self0 = aimed (ana := good) (set_time_limit (PNum 0) cfg0)) /\
        tree self' = tree self0 /\
        self' = set_search_stats (mkStats (Some false) (Some 0) (Some tp)) self0
  | Raise e self' =>
      tree (aimed (ana := good) (set_time_limit (PNum 0) cfg0)) = None /\
      prepare_tree (aimed (ana := good) (set_time_limit (PNum 0) cfg0))
        = Raise e self'
  | Diverge => False
  end.
Proof.
  apply (zero_time_limit_no_iteration (ana := good) 20 clock7
           (aimed (ana := good) (set_time_limit (PNum 0) cfg0)));
    [reflexivity | vm_compute; discriminate].
Defined.

(** Witness of C9: a request with one policy, and one with two. *)
Lemma policy_key_by_selection_size_witness :
  exists resp self',
    run_from_json (ana := good) 20 clock7 request0 (fresh (ana := good))
      = Return resp self' /\
    policy_key_rule (policy_selection (expansion_policy self')) (request resp).
Proof.
  assert (Hrun : exists resp self',
             run_from_json (ana := good) 20 clock7 request0 (fresh (ana := good))
             = Return resp self') by (do 2 eexists; vm_compute; reflexivity).
  destruct Hrun as (resp & self' & Hrun). exists resp, self'.
  split; [exact Hrun|].
  exact (proj2 (policy_key_by_selection_size (ana := good)) _ _ _ _ _ _ Hrun).
Defined.

(** Witness of C10: a new controller. *)
Lemma search_without_target_fails_witness :
  target_smiles (fresh (ana := good))
    = Raise (AttributeError "smiles") (fresh (ana := good)) /\
  forall fuel clock, exists e self',
    tree_search fuel clock (fresh (ana := good)) = Raise e self' /\
    tree self' = None /\ search_stats self' = search_stats (fresh (ana := good)).
Proof.
  apply (search_without_target_fails (ana := good) (fresh (ana := good)));
    [apply reach_new | reflexivity].
Defined.

(** ** Witnesses of the further properties *)

Lemma tree_search_continues_existing_tree_witness :
  match tree_search (ana := good) 20 clock7 (planted cfg0) with
  | Return _ self' | Raise _ self' =>
      same_setup (planted cfg0) self' /\ is_Some (tree self')
  | Diverge => True
  end.
Proof.
  apply (tree_search_continues_existing_tree (ana := good) 20 clock7 (planted cfg0)).
  eexists. reflexivity.
Defined.

Lemma search_ends_on_budget_or_solution_witness :
  exists tp self',
    tree_search (ana := good) 20 clock7 (aimed (ana := good) cfg0)
      = Return tp self' /\
    (returned_first (search_stats self') = Some true /\
     py_truthy (return_first cfg0) = true
     \/
     returned_first (search_stats self') = Some false /\
     exists n, iterations (search_stats self') = Some n /\
               (120 <= tp \/ 100 <= n)).
Proof.
  assert (Hrun : exists tp self',
             tree_search (ana := good) 20 clock7 (aimed (ana := good) cfg0)
             = Return tp self') by (do 2 eexists; vm_compute; reflexivity).
  destruct Hrun as (tp & self' & Hrun). exists tp, self'.
  split; [exact Hrun|].
  exact (search_ends_on_budget_or_solution (ana := good) 20 clock7
           (aimed (ana := good) cfg0) 120 100 tp self' eq_refl eq_refl Hrun).
Defined.

Lemma full_budget_runs_every_iteration_witness :
  exists tp self',
    tree_search (ana := good) 20 clock7
      (aimed (ana := good) (set_iteration_limit (PNum 5) cfg0))
      = Return tp self' /\
    iterations (search_stats self') = Some 5 /\
    returned_first (search_stats self') = Some false /\
    tp = clock7 6 - clock7 0.
Proof.
  assert (Hrun : exists tp self',
             tree_search (ana := good) 20 clock7
               (aimed (ana := good) (set_iteration_limit (PNum 5) cfg0))
             = Return tp self') by (do 2 eexists; vm_compute; reflexivity).
  destruct Hrun as (tp & self' & Hrun). exists tp, self'.
  split; [exact Hrun|].
  apply (full_budget_runs_every_iteration (ana := good) 20 clock7
           (aimed (ana := good) (set_iteration_limit (PNum 5) cfg0))
           120 5%nat tp self' eq_refl eq_refl eq_refl); [|exact Hrun].
  intros k Hk. unfold clock7. lia.
Defined.

Lemma limits_that_are_not_numbers_witness :
  tree_search (ana := good) 20 clock7 (planted (set_time_limit (PStr "2 min") cfg0))
  = Raise (TypeError "<")
      (set_search_stats (mkStats (Some false) (Some 0) None)
         (planted (set_time_limit (PStr "2 min") cfg0))) /\
  tree_search (ana := good) 20 clock7 (planted (set_iteration_limit PNone cfg0))
  = Raise (TypeError "<=")
      (set_search_stats (mkStats (Some false) (Some 0) None)
         (planted (set_iteration_limit PNone cfg0))).
Proof.
  split.
  - apply (limits_that_are_not_numbers (ana := good) 20 clock7
             (planted (set_time_limit (PStr "2 min") cfg0)));
      [eexists; reflexivity | reflexivity].
  - apply (proj2 (limits_that_are_not_numbers (ana := good) 20 clock7
                    (planted (set_iteration_limit PNone cfg0))
                    ltac:(eexists; reflexivity)) 120);
      [reflexivity | reflexivity | vm_compute; reflexivity].
Defined.

Lemma backpropagation_starts_at_terminal_leaf_witness :
  exists leaf t' t2,
    one_iteration (trs := chain_tree true 3 5 3) 20 (mkChain 0 [] 0)
      = Some (leaf, t') /\
    is_terminal (TreeOps := chain_tree true 3 5 3) leaf t2 = true /\
    t' = backpropagate (TreeOps := chain_tree true 3 5 3) leaf
           (state_score (TreeOps := chain_tree true 3 5 3) leaf t2) t2.
Proof.
  assert (Hrun : exists leaf t',
             one_iteration (trs := chain_tree true 3 5 3) 20 (mkChain 0 [] 0)
             = Some (leaf, t')) by (do 2 eexists; vm_compute; reflexivity).
  destruct Hrun as (leaf & t' & Hrun).
  destruct (backpropagation_starts_at_terminal_leaf
              (trs := chain_tree true 3 5 3) 20 _ leaf t' Hrun) as (t2 & Hterm & Heq).
  exists leaf, t', t2. auto.
Defined.


Lemma list_stock_resets :
  exclusion_list_resets (stk := list_stock).
Proof.
  split.
  - intros st. reflexivity.
  - intros [m|] st st' Hex; simpl in Hex; simplify_eq. reflexivity.
Qed.

Lemma prepare_tree_twice_witness :
  exists self1,
    prepare_tree (aimed (ana := good) cfg0) = Return tt self1 /\
    prepare_tree self1 = Return tt self1.
Proof.
  assert (Hrun : exists self',
             prepare_tree (aimed (ana := good) cfg0) = Return tt self')
    by (eexists; vm_compute; reflexivity).
  destruct Hrun as (self1 & Hrun). exists self1. split; [exact Hrun|].
  exact (prepare_tree_twice (ana := good) _ self1 list_stock_resets Hrun).
Defined.

Lemma statistics_after_search_witness :
  exists tp s1 s2 stats,
    tree_search (ana := good) 20 clock7 (aimed (ana := good) cfg0) = Return tp s1 /\
    build_routes 5 "state score" s1 = Return tt s2 /\
    extract_statistics s2 = Return stats s2 /\
    stats !! "search_time" = Some (PNum tp) /\
    stats !! "target" = Some (PStr "CCO").
Proof.
  assert (Hrun : exists tp s1 s2,
             tree_search (ana := good) 20 clock7 (aimed (ana := good) cfg0)
             = Return tp s1 /\
             build_routes 5 "state score" s1 = Return tt s2)
    by (do 3 eexists; split; vm_compute; reflexivity).
  destruct Hrun as (tp & s1 & s2 & Hsearch & Hbuild).
  destruct (statistics_after_search (ana := good) 20 clock7 5 "state score"
              (aimed (ana := good) cfg0) tp s1 s2
              (or_introl eq_refl) Hsearch Hbuild)
    as (a & mol & stats & _ & Hmol & Hstats & _ & Htime & Htarget).
  injection Hmol as <-.
  exists tp, s1, s2, stats. split; [exact Hsearch|]. split; [exact Hbuild|].
  split; [exact Hstats|].
  split; [apply Htime | apply Htarget]; destruct a; reflexivity.
Defined.

Lemma response_echoes_configuration_witness :
  exists resp self',
    run_from_json (ana := good) 20 clock7 request0 (fresh (ana := good))
      = Return resp self' /\
    request resp !! "time_limit" = request0 !! "time_limit" /\
    request resp !! "C" = request0 !! "C" /\
    request resp !! "smiles" = Some (PStr "CCO").
Proof.
  assert (Hrun : exists resp self',
             run_from_json (ana := good) 20 clock7 request0 (fresh (ana := good))
             = Return resp self') by (do 2 eexists; vm_compute; reflexivity).
  destruct Hrun as (resp & self' & Hrun). exists resp, self'.
  split; [exact Hrun|].
  destruct (response_echoes_configuration (ana := good) 20 clock7 request0
              (fresh (ana := good)) resp self' Hrun)
    as (Hkeys & v & mol & Hv & Hmol & _ & Hsmiles).
  split; [apply Hkeys; apply list_elem_of_In; simpl; tauto|].
  split; [apply Hkeys; apply list_elem_of_In; simpl; tauto|].
  vm_compute in Hv. injection Hv as <-.
  vm_compute in Hmol. injection Hmol as <-. exact Hsmiles.
Defined.

Lemma response_is_built_from_final_tree_witness :
  exists resp self' sc a r0,
    run_from_json (ana := good) 20 clock7 request0 (fresh (ana := good))
      = Return resp self' /\
    is_Some (tree self') /\
    scorers_lookup "state score" = inr sc /\
    TreeAnalysis (tree self') sc = inr a /\
    analysis self' = Some a /\
    routes self' = Some r0 /\ trees resp = routes_dicts r0.
Proof.
  assert (Hrun : exists resp self',
             run_from_json (ana := good) 20 clock7 request0 (fresh (ana := good))
             = Return resp self') by (do 2 eexists; vm_compute; reflexivity).
  destruct Hrun as (resp & self' & Hrun).
  destruct (response_is_built_from_final_tree (ana := good) 20 clock7 request0
              (fresh (ana := good)) resp self' Hrun)
    as (sc & a & r0 & Htree & Hsc & Ha & Hana & _ & Hfinal).
  exists resp, self', sc, a, r0. auto 10.
Defined.

Lemma statistics_before_search_witness :
  exists s1,
    prepare_tree (aimed (ana := good) cfg0) = Return tt s1 /\
    extract_statistics s1 = Return ∅ s1 /\
    exists s2,
      build_routes 5 "state score" s1 = Return tt s2 /\
      extract_statistics s2 = Raise (KeyError "time") s2.
Proof.
  assert (Hrun : exists s1 s2,
             prepare_tree (aimed (ana := good) cfg0) = Return tt s1 /\
             build_routes 5 "state score" s1 = Return tt s2)
    by (do 2 eexists; split; vm_compute; reflexivity).
  destruct Hrun as (s1 & s2 & Hprep & Hbuild).
  destruct (statistics_before_search (ana := good) _ s1 Hprep) as [Hempty Hfail].
  exists s1. split; [exact Hprep|]. split; [exact Hempty|].
  exists s2. split; [exact Hbuild|].
  exact (Hfail 5 "state score"%string s2 eq_refl Hbuild).
Defined.

Lemma response_reports_applied_selections_witness :
  exists resp self',
    run_from_json (ana := good) 20 clock7 request0 (fresh (ana := good))
      = Return resp self' /\
    expansion_policy self' = ["uspto"%string] /\
    filter_policy self' = [] /\
    request resp !! "filter" = None.
Proof.
  assert (Hrun : exists resp self',
             run_from_json (ana := good) 20 clock7 request0 (fresh (ana := good))
             = Return resp self') by (do 2 eexists; vm_compute; reflexivity).
  destruct Hrun as (resp & self' & Hrun). exists resp, self'.
  split; [exact Hrun|].
  destruct (response_reports_applied_selections (ana := good) 20 clock7 request0
              (fresh (ana := good)) resp self' Hrun) as (Hep & Hfp & Hfilter).
  assert (Hsel : policy_select (policy_argument request0)
                    (expansion_policy (fresh (ana := good)))
                  = inr ["uspto"%string]) by (vm_compute; reflexivity).
  assert (Hnone : request0 !! "filter" = None) by (vm_compute; reflexivity).
  rewrite Hsel in Hep. injection Hep as Hep. rewrite Hnone in Hfp.
  split; [symmetry; exact Hep|]. split; [exact Hfp|].
  rewrite Hfilter, Hfp. reflexivity.
Defined.

Lemma routes_come_with_their_analysis_witness :
  exists resp self',
    run_from_json (ana := good) 20 clock7 request0 (fresh (ana := good))
      = Return resp self' /\
    (is_Some (tree self') -> is_Some (_target_mol self')) /\
    (is_Some (routes self') -> is_Some (analysis self')).
Proof.
  assert (Hrun : exists resp self',
             run_from_json (ana := good) 20 clock7 request0 (fresh (ana := good))
             = Return resp self') by (do 2 eexists; vm_compute; reflexivity).
  destruct Hrun as (resp & self' & Hrun). exists resp, self'.
  split; [exact Hrun|].
  apply (routes_come_with_their_analysis (ana := good) self').
  apply (reach_call _ (run_from_json (ana := good) 20 clock7 request0)
           (fresh (ana := good)) self').
  - apply reach_new.
  - apply call_run_from_json.
  - left. exists resp. exact Hrun.
Defined.
